(** * MCP gateway: connection supervisor and session router

    A shallow embedding of [backend/src/gateway.py] (classes
    [MCPServerManager] and [MCPGateway]), of the JSON-RPC entry point
    [handle_mcp_request] and the health loop of [backend/src/server.py], of
    the authorization codes and permission checks of [backend/src/auth.py]
    and of the handshake of [backend/src/adapters/n8n.py].

    The Python code is effectful: it spawns subprocesses, talks over pipes
    and HTTP, reads the clock and writes status rows.  The embedding threads
    an explicit [World] (the three registries of the manager, the session
    index of the gateway, the rows of the database and the trace of external
    events performed so far) through a state-and-exception monad.  What the
    outside world answers is given by an environment [Env] of oracles, each a
    function of the trace so far, so that providers may behave differently at
    each call. *)

From Stdlib Require Import ZArith String List Bool.
From stdpp Require Import base option list gmap strings.
Import ListNotations.
Local Open Scope Z_scope.
Local Open Scope string_scope.
Local Open Scope list_scope.
Local Set Warnings "-register-all".

(** ** JSON values as Python sees them after [json.loads] *)

(** Numbers are the integers; Python floats are left out.  A dict is an
    association list in insertion order, the first binding of a key being the
    visible one. *)
Inductive json : Type :=
| JNull
| JBool (b : bool)
| JNum (n : Z)
| JStr (s : string)
| JList (l : list json)
| JDict (d : list (string * json)).

Definition dict := list (string * json).

Fixpoint dict_get (k : string) (d : dict) : option json :=
  match d with
  | [] => None
  | (k', v) :: d' => if String.eqb k k' then Some v else dict_get k d'
  end.

(** [d[k] = v]: overwrite in place when the key is bound, append otherwise. *)
Fixpoint dict_set (k : string) (v : json) (d : dict) : dict :=
  match d with
  | [] => [(k, v)]
  | (k', v') :: d' =>
      if String.eqb k k' then (k', v) :: d' else (k', v') :: dict_set k v d'
  end.

Definition dict_has (k : string) (d : dict) : bool :=
  match dict_get k d with Some _ => true | None => false end.

(** Python [==] on decoded JSON: [True == 1], lists pointwise, dicts by key. *)
Fixpoint py_eq (a b : json) {struct a} : bool :=
  match a, b with
  | JNull, JNull => true
  | JBool x, JBool y => Bool.eqb x y
  | JBool x, JNum n => Z.eqb (if x then 1 else 0) n
  | JNum n, JBool x => Z.eqb n (if x then 1 else 0)
  | JNum n, JNum m => Z.eqb n m
  | JStr s, JStr t => String.eqb s t
  | JList xs, JList ys =>
      (fix go (xs ys : list json) {struct xs} : bool :=
         match xs, ys with
         | [], [] => true
         | x :: xs', y :: ys' => py_eq x y && go xs' ys'
         | _, _ => false
         end) xs ys
  | JDict d1, JDict d2 =>
      Nat.eqb (length d1) (length d2) &&
      (fix go (d : list (string * json)) {struct d} : bool :=
         match d with
         | [] => true
         | (k, v) :: d' =>
             match dict_get k d2 with
             | Some v' => py_eq v v' && go d'
             | None => false
             end
         end) d1
  | _, _ => false
  end.

(** Python truth value: [None], [False], [0], [""], [[]] and [{}] are false. *)
Definition truthy (v : json) : bool :=
  match v with
  | JNull => false
  | JBool b => b
  | JNum n => negb (Z.eqb n 0)
  | JStr s => negb (String.eqb s "")
  | JList l => match l with [] => false | _ => true end
  | JDict d => match d with [] => false | _ => true end
  end.

Definition is_dict (v : json) : bool :=
  match v with JDict _ => true | _ => false end.

(** Substring test, for [k in s] on a Python string. *)
Definition str_contains (k s : string) : bool :=
  match String.index 0 k s with Some _ => true | None => false end.

(** One-character strings of [s], as [for c in s] yields them. *)
Fixpoint str_chars (s : string) : list json :=
  match s with
  | EmptyString => []
  | String c s' => JStr (String c EmptyString) :: str_chars s'
  end.

(** ** Exceptions *)

(** The [detail] of an [HTTPException]; formatted messages keep their
    arguments instead of a rendered string. *)
Inductive exn : Type :=
| HTTPException (status_code : Z) (detail : detail)
| TimeoutError
| TypeError
| AttributeError
| JSONDecodeError
| KeyError
| OSError (what : string)                  (* BrokenPipeError, ProcessLookupError, httpx errors, ... *)
with detail : Type :=
| Msg (s : string)
| ToolNotFound (tool_name : json)          (* f"Tool '{tool_name}' not found" *)
| RequestFailed (cause : exn).             (* f"Server request failed: {str(e)}" *)

Inductive result (A : Type) : Type :=
| Return (a : A)
| Raise (e : exn).
Arguments Return {A} a.
Arguments Raise {A} e.

Definition is_timeout (e : exn) : bool :=
  match e with TimeoutError => true | _ => false end.

(** ** Python operations on [Any] that may raise *)

(** [k in x] *)
Definition py_in (k : string) (x : json) : result bool :=
  match x with
  | JDict d => Return (dict_has k d)
  | JList l => Return (existsb (py_eq (JStr k)) l)
  | JStr s => Return (str_contains k s)
  | _ => Raise TypeError
  end.

(** [x[k]] with a string key *)
Definition py_getitem (x : json) (k : string) : result json :=
  match x with
  | JDict d => match dict_get k d with
               | Some v => Return v
               | None => Raise KeyError
               end
  | _ => Raise TypeError
  end.

(** [x[k] = v] with a string key; only a dict supports it. *)
Definition py_setitem (x : json) (k : string) (v : json) : result json :=
  match x with
  | JDict d => Return (JDict (dict_set k v d))
  | _ => Raise TypeError
  end.

(** [x.get(k, default)]; only a dict has the method. *)
Definition py_get (x : json) (k : string) (default : json) : result json :=
  match x with
  | JDict d => Return (match dict_get k d with Some v => v | None => default end)
  | _ => Raise AttributeError
  end.

(** [iter(x)] *)
Definition py_iter (x : json) : result (list json) :=
  match x with
  | JList l => Return l
  | JDict d => Return (map (fun kv => JStr (fst kv)) d)
  | JStr s => Return (str_chars s)
  | _ => Raise TypeError
  end.

(** [x.get(k) if x else None], the idiom both routers use on [params]. *)
Definition get_if_truthy (x : json) (k : string) : result json :=
  if truthy x then py_get x k JNull else Return JNull.

(** ** Data model ([models.py]) *)

Inductive ServerStatus : Type := ACTIVE | INACTIVE | ERROR | STARTING | STOPPING.

(** The column is a plain string; [OTHER] stands for a value outside the enum. *)
Inductive TransportType : Type := STDIO | HTTP | SSE | STREAMABLE_HTTP | OTHER.

Record MCPServer : Type := mkServer {
  s_id : Z;
  s_name : string;
  s_command : string;
  s_args : list string;
  s_env : list (string * string);
  s_transport_type : TransportType;
  s_host : string;
  s_port : option Z;
  s_status : ServerStatus;
  s_last_health_check : option Z;
  s_health_check_interval : Z;
  s_auto_restart : bool;
  s_max_restarts : Z;
  s_restart_count : Z
}.

(** [server.status = status; server.last_health_check = now] *)
Definition with_status (s : MCPServer) (st : ServerStatus) (now : Z) : MCPServer :=
  {| s_id := s_id s; s_name := s_name s; s_command := s_command s;
     s_args := s_args s; s_env := s_env s;
     s_transport_type := s_transport_type s; s_host := s_host s;
     s_port := s_port s; s_status := st; s_last_health_check := Some now;
     s_health_check_interval := s_health_check_interval s;
     s_auto_restart := s_auto_restart s; s_max_restarts := s_max_restarts s;
     s_restart_count := s_restart_count s |}.

(** Row of the [sessions] table. *)
Record DBSession : Type := mkDBSession {
  db_session_id : string;
  db_client_type : string;
  db_client_info : json;
  db_connected_servers : list Z;
  db_is_active : bool
}.

(** Entry of [MCPGateway.sessions]. *)
Record session : Type := mkSession {
  client_type : string;
  client_info : json;
  connected_servers : list Z;
  created_at : Z
}.

(** ** Transports, events and the environment *)

(** A subprocess, named by its handle. *)
Definition proc := Z.

(** [f"http://{server.host}:{server.port}"], kept in parts. *)
Record base_url : Type := mkUrl { url_host : string; url_port : option Z }.

(** Entry of [MCPServerManager.active_servers]; the ["type"] key is the
    constructor. *)
Inductive server_info : Type :=
| StdioInfo (server : MCPServer) (process : proc) (started_at : Z)
| HttpInfo (server : MCPServer) (client : base_url) (started_at : Z).

(** What was read from a pipe or an HTTP body, before [json.loads]. *)
Inductive line : Type := Malformed | Json (v : json).

Definition json_loads (l : line) : result json :=
  match l with Json v => Return v | Malformed => Raise JSONDecodeError end.

(** External actions, in the order the program performs them. *)
Inductive event : Type :=
| EvSpawn (cmd : list string) (env : list (string * string))
| EvStdinWrite (p : proc) (data : json)
| EvReadline (p : proc) (timeout : Z)
| EvTerminate (p : proc)
| EvWait (p : proc) (timeout : option Z)
| EvKill (p : proc)
| EvHttpGet (c : base_url) (path : string)
| EvHttpPost (c : base_url) (path : string) (body : json)
| EvAclose (c : base_url)
| EvUtcnow
| EvUuid4.

(** The outside world: every oracle sees the trace of events so far.
    [io_async_client] says whether httpx can make a client for an address
    with a port; it performs no external action and sees no trace. *)
Record Env : Type := mkEnv {
  io_spawn : list event -> list string -> list (string * string) -> result proc;
  io_stdin_write : list event -> proc -> json -> result unit;
  io_readline : list event -> proc -> Z -> result line;
  io_terminate : list event -> proc -> result unit;
  io_wait : list event -> proc -> option Z -> result unit;
  io_kill : list event -> proc -> result unit;
  io_async_client : base_url -> result unit;
  io_http_get : list event -> base_url -> string -> result Z;
  io_http_post : list event -> base_url -> string -> json -> result line;
  io_aclose : list event -> base_url -> result unit;
  io_utcnow : list event -> Z;
  io_uuid4 : list event -> string
}.

(** ** The world and its monad *)

Record World : Type := mkWorld {
  active_servers : gmap Z server_info;
  server_processes : gmap Z proc;
  http_clients : gmap Z base_url;
  sessions : gmap string session;
  db_servers : gmap Z MCPServer;
  db_sessions : list DBSession;
  trace : list event
}.

Definition M (A : Type) : Type := World -> World * result A.

Definition ret {A} (a : A) : M A := fun w => (w, Return a).
Definition raise {A} (e : exn) : M A := fun w => (w, Raise e).
Definition lift {A} (r : result A) : M A := fun w => (w, r).

Definition bind {A B} (c : M A) (k : A -> M B) : M B :=
  fun w => match c w with
           | (w', Return a) => k a w'
           | (w', Raise e) => (w', Raise e)
           end.

(** [try: c  except Exception as e: h e] *)
Definition try_except {A} (c : M A) (h : exn -> M A) : M A :=
  fun w => match c w with
           | (w', Return a) => (w', Return a)
           | (w', Raise e) => h e w'
           end.

(** [try: c  except asyncio.TimeoutError: h] *)
Definition except_timeout {A} (c : M A) (h : M A) : M A :=
  fun w => match c w with
           | (w', Raise e) => if is_timeout e then h w' else (w', Raise e)
           | r => r
           end.

Notation "'let*' x ':=' c 'in' k" := (bind c (fun x => k))
  (at level 10, x name, c at level 100, k at level 200).
Notation "c ';;' k" := (bind c (fun _ => k))
  (at level 100, k at level 200, right associativity).

Definition get {A} (f : World -> A) : M A := fun w => (w, Return (f w)).
Definition modify (f : World -> World) : M unit := fun w => (f w, Return tt).

Definition log_event (ev : event) (w : World) : World :=
  {| active_servers := active_servers w; server_processes := server_processes w;
     http_clients := http_clients w; sessions := sessions w;
     db_servers := db_servers w; db_sessions := db_sessions w;
     trace := (trace w ++ [ev])%list |}.

(** Perform the external action [ev]; the oracle answers from the trace
    before it. *)
Definition perform {A} (ev : event) (oracle : list event -> result A) : M A :=
  fun w => (log_event ev w, oracle (trace w)).

Definition set_active_servers (f : gmap Z server_info -> gmap Z server_info) (w : World) : World :=
  {| active_servers := f (active_servers w); server_processes := server_processes w;
     http_clients := http_clients w; sessions := sessions w;
     db_servers := db_servers w; db_sessions := db_sessions w; trace := trace w |}.

Definition set_server_processes (f : gmap Z proc -> gmap Z proc) (w : World) : World :=
  {| active_servers := active_servers w; server_processes := f (server_processes w);
     http_clients := http_clients w; sessions := sessions w;
     db_servers := db_servers w; db_sessions := db_sessions w; trace := trace w |}.

Definition set_http_clients (f : gmap Z base_url -> gmap Z base_url) (w : World) : World :=
  {| active_servers := active_servers w; server_processes := server_processes w;
     http_clients := f (http_clients w); sessions := sessions w;
     db_servers := db_servers w; db_sessions := db_sessions w; trace := trace w |}.

Definition set_sessions (f : gmap string session -> gmap string session) (w : World) : World :=
  {| active_servers := active_servers w; server_processes := server_processes w;
     http_clients := http_clients w; sessions := f (sessions w);
     db_servers := db_servers w; db_sessions := db_sessions w; trace := trace w |}.

Definition set_db_servers (f : gmap Z MCPServer -> gmap Z MCPServer) (w : World) : World :=
  {| active_servers := active_servers w; server_processes := server_processes w;
     http_clients := http_clients w; sessions := sessions w;
     db_servers := f (db_servers w); db_sessions := db_sessions w; trace := trace w |}.

Definition set_db_sessions (f : list DBSession -> list DBSession) (w : World) : World :=
  {| active_servers := active_servers w; server_processes := server_processes w;
     http_clients := http_clients w; sessions := sessions w;
     db_servers := db_servers w; db_sessions := f (db_sessions w); trace := trace w |}.

(** ** [MCPServerManager] *)

Section Manager.
Context (E : Env).

Definition utcnow : M Z := perform EvUtcnow (fun tr => Return (io_utcnow E tr)).
Definition uuid4 : M string := perform EvUuid4 (fun tr => Return (io_uuid4 E tr)).

Definition stdin_write (p : proc) (data : json) : M unit :=
  perform (EvStdinWrite p data) (fun tr => io_stdin_write E tr p data).
Definition readline (p : proc) (timeout : Z) : M line :=
  perform (EvReadline p timeout) (fun tr => io_readline E tr p timeout).
Definition terminate (p : proc) : M unit :=
  perform (EvTerminate p) (fun tr => io_terminate E tr p).
Definition wait (p : proc) (timeout : option Z) : M unit :=
  perform (EvWait p timeout) (fun tr => io_wait E tr p timeout).
Definition kill (p : proc) : M unit :=
  perform (EvKill p) (fun tr => io_kill E tr p).
Definition aclose (c : base_url) : M unit :=
  perform (EvAclose c) (fun tr => io_aclose E tr c).
Definition http_get (c : base_url) (path : string) : M Z :=
  perform (EvHttpGet c path) (fun tr => io_http_get E tr c path).
(** [client.post(path, json=body)] followed by [raise_for_status()]: the
    oracle raises on a network failure or an error status. *)
Definition http_post (c : base_url) (path : string) (body : json) : M line :=
  perform (EvHttpPost c path body) (fun tr => io_http_post E tr c path body).

(** [settings.server_timeout] of [config.py]. *)
Definition server_timeout : Z := 30.

Definition _update_server_status (server_id : Z) (status : ServerStatus) : M unit :=
  let* row := get (fun w => db_servers w !! server_id) in
  match row with
  | Some server =>
      let* now := utcnow in
      modify (set_db_servers <[server_id := with_status server status now]>)
  | None => ret tt
  end.

Definition ping_request : json :=
  JDict [("jsonrpc", JStr "2.0"); ("id", JNum 1); ("method", JStr "ping")].

Definition _test_stdio_connection (process : proc) : M bool :=
  try_except
    (stdin_write process ping_request ;;
     except_timeout
       (let* response_line := readline process 5 in
        let* response := lift (json_loads response_line) in
        lift (py_in "jsonrpc" response))
       (ret false))
    (fun _ => ret false).

Definition _test_http_connection (client : base_url) (server : MCPServer) : M bool :=
  try_except
    (let* status_code :=
       match s_transport_type server with
       | SSE => http_get client "/sse"
       | STREAMABLE_HTTP => http_get client "/"
       | _ => http_get client "/health"
       end in
     ret (existsb (Z.eqb status_code) [200; 201; 202]))
    (fun _ => ret false).

(** The environment handed to the child is [os.environ] overlaid with
    [server.env]; the event records the overlay. *)
Definition _start_stdio_server (server : MCPServer) : M bool :=
  try_except
    (let cmd := s_command server :: s_args server in
     let* process :=
       perform (EvSpawn cmd (s_env server)) (fun tr => io_spawn E tr cmd (s_env server)) in
     modify (set_server_processes <[s_id server := process]>) ;;
     let* ok := _test_stdio_connection process in
     if ok then
       let* now := utcnow in
       modify (set_active_servers <[s_id server := StdioInfo server process now]>) ;;
       _update_server_status (s_id server) ACTIVE ;;
       ret true
     else
       kill process ;;
       wait process None ;;
       ret false)
    (fun _ => ret false).

(** [httpx.AsyncClient(base_url=f"http://{server.host}:{server.port}",
    timeout=30.0)].  No request is made, but httpx raises [InvalidURL] on an
    address it cannot parse.  For a provider without a port the address
    reads [http://host:None], which it never accepts; whether it accepts an
    address with a port is the environment's. *)
Definition async_client (server : MCPServer) : M base_url :=
  let client := mkUrl (s_host server) (s_port server) in
  match s_port server with
  | None => raise (OSError "InvalidURL")
  | Some _ => lift (io_async_client E client) ;; ret client
  end.

Definition _start_http_server (server : MCPServer) : M bool :=
  try_except
    (let* client := async_client server in
     let* ok := _test_http_connection client server in
     if ok then
       modify (set_http_clients <[s_id server := client]>) ;;
       let* now := utcnow in
       modify (set_active_servers <[s_id server := HttpInfo server client now]>) ;;
       _update_server_status (s_id server) ACTIVE ;;
       ret true
     else
       aclose client ;;
       ret false)
    (fun _ => ret false).

Definition start_server (server : MCPServer) : M bool :=
  try_except
    (match s_transport_type server with
     | STDIO => _start_stdio_server server
     | HTTP | SSE | STREAMABLE_HTTP => _start_http_server server
     | OTHER => ret false
     end)
    (fun _ => _update_server_status (s_id server) ERROR ;; ret false).

(** The [if server_info["type"] == "stdio": ... elif ... == "http": ...]
    block of [stop_server]. *)
Definition close_transport (info : server_info) : M unit :=
  match info with
  | StdioInfo _ process _ =>
      terminate process ;;
      except_timeout
        (wait process (Some 5))
        (kill process ;; wait process None)
  | HttpInfo _ client _ =>
      aclose client
  end.

Definition stop_server (server_id : Z) : M bool :=
  try_except
    (let* entry := get (fun w => active_servers w !! server_id) in
     match entry with
     | None => ret true
     | Some info =>
         close_transport info ;;
         modify (set_active_servers (delete server_id)) ;;
         modify (set_server_processes (delete server_id)) ;;
         modify (set_http_clients (delete server_id)) ;;
         _update_server_status server_id INACTIVE ;;
         ret true
     end)
    (fun _ => ret false).

Definition _proxy_stdio_request (info : server_info) (request_data : json) : M json :=
  match info with
  | StdioInfo _ process _ =>
      stdin_write process request_data ;;
      let* response_line := readline process server_timeout in
      lift (json_loads response_line)
  | HttpInfo _ _ _ => raise KeyError
  end.

Definition _proxy_http_request (info : server_info) (request_data : json) : M json :=
  match info with
  | HttpInfo server client _ =>
      let* body :=
        match s_transport_type server with
        | SSE => http_post client "/sse" request_data
        | STREAMABLE_HTTP => http_post client "/" request_data
        | _ => http_post client "/mcp" request_data
        end in
      lift (json_loads body)
  | StdioInfo _ _ _ => raise KeyError
  end.

(** [time.time()] is read twice for a duration that is never used; the
    reads are left out. *)
Definition proxy_request (server_id : Z) (method : string) (params : json) : M json :=
  let* entry := get (fun w => active_servers w !! server_id) in
  match entry with
  | None => raise (HTTPException 404 (Msg "Server not found or inactive"))
  | Some info =>
      let* request_id := uuid4 in
      let request_data :=
        JDict [("jsonrpc", JStr "2.0"); ("id", JStr request_id);
               ("method", JStr method); ("params", params)] in
      try_except
        (match info with
         | StdioInfo _ _ _ => _proxy_stdio_request info request_data
         | HttpInfo _ _ _ => _proxy_http_request info request_data
         end)
        (fun e => raise (HTTPException 500 (RequestFailed e)))
  end.

Definition get_server_capabilities (server_id : Z) : M json :=
  try_except
    (let* response :=
       proxy_request server_id "initialize"
         (JDict [("protocolVersion", JStr "2024-11-05"); ("capabilities", JDict [])]) in
     lift (py_get response "result" (JDict [])))
    (fun _ => ret (JDict [])).

Definition health_check (server_id : Z) : M bool :=
  try_except
    (let* entry := get (fun w => active_servers w !! server_id) in
     match entry with
     | None => ret false
     | Some _ =>
         proxy_request server_id "ping" JNull ;;
         _update_server_status server_id ACTIVE ;;
         ret true
     end)
    (fun _ => _update_server_status server_id ERROR ;; ret false).

(** ** [MCPGateway] *)

(** [client_info or {}] *)
Definition or_empty_dict (v : json) : json := if truthy v then v else JDict [].

(** The identifier drawn is taken to be new to the sessions table, so that
    the [UNIQUE] constraint of the column does not fire at [db.commit()]. *)
Definition create_session (client_type : string) (client_info : json) : M string :=
  let* session_id := uuid4 in
  modify (set_db_sessions (fun rows =>
    (rows ++ [mkDBSession session_id client_type (or_empty_dict client_info) [] true])%list)) ;;
  let* now := utcnow in
  modify (set_sessions
    <[session_id := mkSession client_type (or_empty_dict client_info) [] now]>) ;;
  ret session_id.

(** [for item in server_result: item["_server_id"] = server_id] *)
Fixpoint tag_items (server_id : Z) (items : list json) : result (list json) :=
  match items with
  | [] => Return []
  | item :: rest =>
      match py_setitem item "_server_id" (JNum server_id) with
      | Raise e => Raise e
      | Return item' =>
          match tag_items server_id rest with
          | Raise e => Raise e
          | Return rest' => Return (item' :: rest')
          end
      end
  end.

(** One turn of the loop of [_aggregate_from_servers]: the [try] block and
    its [except Exception: continue], from [results] to the new [results]. *)
Definition aggregate_step (method : string) (params : json)
    (results : list json) (server_id : Z) : M (list json) :=
  try_except
    (let* response := proxy_request server_id method params in
     let* has_result := lift (py_in "result" response) in
     if has_result then
       let* server_result := lift (py_getitem response "result") in
       match server_result with
       | JList items =>
           let* tagged := lift (tag_items server_id items) in
           ret (results ++ tagged)%list
       | JDict _ =>
           let* tagged := lift (py_setitem server_result "_server_id" (JNum server_id)) in
           ret (results ++ [tagged])%list
       | _ => ret results
       end
     else ret results)
    (fun _ => ret results).

Fixpoint aggregate_loop (method : string) (params : json)
    (results : list json) (servers : list Z) : M (list json) :=
  match servers with
  | [] => ret results
  | server_id :: rest =>
      let* results' := aggregate_step method params results server_id in
      aggregate_loop method params results' rest
  end.

Definition _aggregate_from_servers (s : session) (method : string) (params : json) : M json :=
  let* results := aggregate_loop method params [] (connected_servers s) in
  let* id := lift (get_if_truthy params "id") in
  ret (JDict [("jsonrpc", JStr "2.0"); ("id", id); ("result", JList results)]).

(** [for tool in tools: if tool.get("name") == tool_name: ...]: whether the
    scan reaches a match, or raises before. *)
Fixpoint scan_tools (tools : list json) (tool_name : json) : result bool :=
  match tools with
  | [] => Return false
  | tool :: rest =>
      match py_get tool "name" JNull with
      | Raise e => Raise e
      | Return n => if py_eq n tool_name then Return true else scan_tools rest tool_name
      end
  end.

(** One turn of the loop of [_route_tool_call]: [Some r] when the [try]
    block returned [r], [None] when the loop goes on, by falling through or
    by [except Exception: continue]. *)
Definition tool_call_step (method : string) (params tool_name : json)
    (server_id : Z) : M (option json) :=
  try_except
    (let* tools_response := proxy_request server_id "tools/list" JNull in
     let* tools := lift (py_get tools_response "result" (JList [])) in
     let* items := lift (py_iter tools) in
     let* found := lift (scan_tools items tool_name) in
     if found then
       let* r := proxy_request server_id method params in
       ret (Some r)
     else ret None)
    (fun _ => ret None).

Fixpoint tool_call_loop (method : string) (params tool_name : json)
    (servers : list Z) : M json :=
  match servers with
  | [] => raise (HTTPException 404 (ToolNotFound tool_name))
  | server_id :: rest =>
      let* r := tool_call_step method params tool_name server_id in
      match r with
      | Some response => ret response
      | None => tool_call_loop method params tool_name rest
      end
  end.

Definition _route_tool_call (s : session) (method : string) (params : json) : M json :=
  let* tool_name := lift (get_if_truthy params "name") in
  if negb (truthy tool_name) then
    raise (HTTPException 400 (Msg "Tool name required"))
  else
    tool_call_loop method params tool_name (connected_servers s).

Definition _route_to_primary_server (s : session) (method : string) (params : json) : M json :=
  match connected_servers s with
  | [] => raise (HTTPException 400 (Msg "No servers connected to session"))
  | primary_server_id :: _ => proxy_request primary_server_id method params
  end.

Definition list_methods : list string := ["tools/list"; "resources/list"; "prompts/list"].

Definition route_request (session_id : string) (method : string) (params : json) : M json :=
  let* entry := get (fun w => sessions w !! session_id) in
  match entry with
  | None => raise (HTTPException 404 (Msg "Session not found"))
  | Some s =>
      if existsb (String.eqb method) list_methods then
        _aggregate_from_servers s method params
      else if String.prefix "tools/call" method then
        _route_tool_call s method params
      else
        _route_to_primary_server s method params
  end.

(** ** The JSON-RPC entry point ([server.py]) *)

(** Body of a [JSONResponse]: what the gateway returned, or the error
    envelope, whose message is [str(e)]. *)
Inductive content : Type :=
| Content (response : json)
| ErrorContent (id : json) (code : Z) (e : exn).

(** [gateway.route_request(session_id, request_data.get("method"), ...)] with
    the method and the session identifier as decoded, not yet known to be
    strings. *)
Definition route_decoded (session_id method params : json) : M json :=
  match session_id with
  | JStr sid =>
      match method with
      | JStr m => route_request sid m params
      | _ =>
          let* entry := get (fun w => sessions w !! sid) in
          match entry with
          | None => raise (HTTPException 404 (Msg "Session not found"))
          | Some _ => raise AttributeError          (* method.startswith *)
          end
      end
  | JList _ | JDict _ => raise TypeError            (* unhashable key *)
  | _ => raise (HTTPException 404 (Msg "Session not found"))
  end.

Definition handle_mcp_request (body : line) (current_user : json) : M (Z * content) :=
  match json_loads body with
  | Raise e => ret (500, ErrorContent JNull (-32000) e)
  | Return request_data =>
      try_except
        (let* session_id := lift (py_get current_user "session_id" JNull) in
         let* session_id :=
           if negb (truthy session_id) then
             let* client_type := lift (py_get current_user "type" (JStr "api")) in
             match client_type with
             | JStr t => let* sid := create_session t current_user in ret (JStr sid)
             | _ => raise TypeError   (* no string: left to the database driver, taken to refuse it *)
             end
           else ret session_id in
         let* method := lift (py_get request_data "method" JNull) in
         let* params := lift (py_get request_data "params" JNull) in
         let* response := route_decoded session_id method params in
         ret (200, Content response))
        (fun e =>
           let* id := lift (py_get request_data "id" JNull) in
           ret (500, ErrorContent id (-32000) e))
  end.

End Manager.

Arguments bind {A B} c k w /.
Arguments ret {A} a w /.
Arguments raise {A} e w /.
Arguments lift {A} r w /.
Arguments get {A} f w /.
Arguments modify f w /.
Arguments try_except {A} c h w /.
Arguments except_timeout {A} c h w /.
Arguments perform {A} ev oracle w /.

Arguments log_event ev w : simpl never.
Arguments set_active_servers f w : simpl never.
Arguments set_server_processes f w : simpl never.
Arguments set_http_clients f w : simpl never.
Arguments set_sessions f w : simpl never.
Arguments set_db_servers f w : simpl never.
Arguments set_db_sessions f w : simpl never.
Arguments proxy_request E server_id method params w : simpl never.
Arguments _update_server_status E server_id status w : simpl never.
Arguments _test_stdio_connection E process w : simpl never.
Arguments close_transport E info w : simpl never.

(** ** Sample environments and worlds *)

Definition is_spawn (ev : event) : bool :=
  match ev with EvSpawn _ _ => true | _ => false end.

Definition count_spawns (tr : list event) : nat :=
  length (List.filter is_spawn tr).

(** The request last written to the pipe of [p]. *)
Fixpoint last_write (p : proc) (tr : list event) : option json :=
  match tr with
  | [] => None
  | ev :: tr' =>
      match last_write p tr' with
      | Some d => Some d
      | None =>
          match ev with
          | EvStdinWrite q d => if Z.eqb p q then Some d else None
          | _ => None
          end
      end
  end.

Definition request_method (req : json) : string :=
  match req with
  | JDict d => match dict_get "method" d with Some (JStr m) => m | _ => "" end
  | _ => ""
  end.

Definition request_id (req : json) : json :=
  match req with
  | JDict d => match dict_get "id" d with Some v => v | None => JNull end
  | _ => JNull
  end.

(** A well-behaved provider: it answers the request last written, echoing
    its identifier, and advertises the tool ["echo"] and one named after the
    parity of its handle. *)
Definition tool_of (p : proc) : string := if Z.even p then "even" else "odd".

Definition polite_reply (p : proc) (req : json) : json :=
  let m := request_method req in
  let result :=
    if String.eqb m "tools/list" then
      JList [JDict [("name", JStr "echo")]; JDict [("name", JStr (tool_of p))]]
    else if String.eqb m "tools/call" then
      JDict [("handled_by", JNum p)]
    else JDict [] in
  JDict [("jsonrpc", JStr "2.0"); ("id", request_id req); ("result", result)].

Definition env_polite : Env :=
  {| io_spawn := fun tr _ _ => Return (100 + Z.of_nat (count_spawns tr));
     io_stdin_write := fun _ _ _ => Return tt;
     io_readline := fun tr p _ =>
       match last_write p tr with
       | Some req => Return (Json (polite_reply p req))
       | None => Raise TimeoutError
       end;
     io_terminate := fun _ _ => Return tt;
     io_wait := fun _ _ _ => Return tt;
     io_kill := fun _ _ => Return tt;
     io_async_client := fun _ => Return tt;
     io_http_get := fun _ _ _ => Return 200;
     io_http_post := fun _ _ _ _ => Return (Json (JDict [("jsonrpc", JStr "2.0")]));
     io_aclose := fun _ _ => Return tt;
     io_utcnow := fun tr => Z.of_nat (length tr);
     io_uuid4 := fun tr => "req" |}.

(** Providers that never answer a read. *)
Definition env_silent : Env :=
  {| io_spawn := io_spawn env_polite;
     io_stdin_write := io_stdin_write env_polite;
     io_readline := fun _ _ _ => Raise TimeoutError;
     io_terminate := io_terminate env_polite;
     io_wait := io_wait env_polite;
     io_kill := io_kill env_polite;
     io_async_client := io_async_client env_polite;
     io_http_get := io_http_get env_polite;
     io_http_post := io_http_post env_polite;
     io_aclose := io_aclose env_polite;
     io_utcnow := io_utcnow env_polite;
     io_uuid4 := io_uuid4 env_polite |}.

(** Subprocesses that have already exited: the pipe is broken and
    [terminate] raises [ProcessLookupError]. *)
Definition env_exited : Env :=
  {| io_spawn := io_spawn env_polite;
     io_stdin_write := fun _ _ _ => Raise (OSError "BrokenPipeError");
     io_readline := fun _ _ _ => Return Malformed;
     io_terminate := fun _ _ => Raise (OSError "ProcessLookupError");
     io_wait := io_wait env_polite;
     io_kill := fun _ _ => Raise (OSError "ProcessLookupError");
     io_async_client := io_async_client env_polite;
     io_http_get := io_http_get env_polite;
     io_http_post := io_http_post env_polite;
     io_aclose := io_aclose env_polite;
     io_utcnow := io_utcnow env_polite;
     io_uuid4 := io_uuid4 env_polite |}.

Definition sample_server (i : Z) : MCPServer :=
  {| s_id := i; s_name := "provider"; s_command := "npx"; s_args := ["server"];
     s_env := []; s_transport_type := STDIO; s_host := "localhost";
     s_port := None; s_status := INACTIVE; s_last_health_check := None;
     s_health_check_interval := 60; s_auto_restart := true;
     s_max_restarts := 3; s_restart_count := 0 |}.

Definition empty_world : World :=
  {| active_servers := ∅; server_processes := ∅; http_clients := ∅;
     sessions := ∅; db_servers := ∅; db_sessions := []; trace := [] |}.

(** Providers 1 and 2 configured in the database, none started. *)
Definition configured_world : World :=
  set_db_servers (fun _ => <[1 := sample_server 1]> (<[2 := sample_server 2]> ∅)) empty_world.

Definition is_readline (ev : event) : bool :=
  match ev with EvReadline _ _ => true | _ => false end.

Definition is_uuid4 (ev : event) : bool :=
  match ev with EvUuid4 => true | _ => false end.

(** The request first written to the pipe of [p]. *)
Fixpoint first_write (p : proc) (tr : list event) : option json :=
  match tr with
  | [] => None
  | EvStdinWrite q d :: tr' => if Z.eqb p q then Some d else first_write p tr'
  | _ :: tr' => first_write p tr'
  end.

(** A slow provider: the first read on its pipe times out; its answer to the
    first request is what the next read finds. *)
Definition env_slow : Env :=
  {| io_spawn := io_spawn env_polite;
     io_stdin_write := io_stdin_write env_polite;
     io_readline := fun tr p _ =>
       if existsb is_readline tr then
         match first_write p tr with
         | Some req => Return (Json (polite_reply p req))
         | None => Raise TimeoutError
         end
       else Raise TimeoutError;
     io_terminate := io_terminate env_polite;
     io_wait := io_wait env_polite;
     io_kill := io_kill env_polite;
     io_async_client := io_async_client env_polite;
     io_http_get := io_http_get env_polite;
     io_http_post := io_http_post env_polite;
     io_aclose := io_aclose env_polite;
     io_utcnow := io_utcnow env_polite;
     io_uuid4 := fun tr => if existsb is_uuid4 tr then "second" else "first" |}.

(** Provider 1 registered on subprocess 100, nothing sent to it yet. *)
Definition fresh_world : World :=
  set_active_servers <[1 := StdioInfo (sample_server 1) 100 0]> configured_world.

(** Providers 1 and 2 running as subprocesses 100 and 101. *)
Definition running_world : World :=
  fst (start_server env_polite (sample_server 2)
         (fst (start_server env_polite (sample_server 1) configured_world))).

Definition attach_session (sid : string) (servers : list Z) (w : World) : World :=
  set_sessions <[sid := mkSession "api" (JDict []) servers 0]> w.


(** Providers 1 and 2 are running, provider 3 is not; the session is attached
    to 1, 3 and 2 in that order. *)
Definition mixed_world : World := attach_session "s" [1; 3; 2] running_world.

(** Both providers advertise ["echo"]; the session is attached to provider 2
    first, then to provider 1. *)
Definition echo_world : World := attach_session "s" [2; 1] running_world.

Definition echo_params : json := JDict [("name", JStr "echo")].

(** ** Specification-side notions *)

(** The world [w] after the external actions [evs], nothing else changed. *)
Definition extend (w : World) (evs : list event) : World :=
  {| active_servers := active_servers w; server_processes := server_processes w;
     http_clients := http_clients w; sessions := sessions w;
     db_servers := db_servers w; db_sessions := db_sessions w;
     trace := (trace w ++ evs)%list |}.

Definition no_spawn (evs : list event) : Prop := forallb (fun ev => negb (is_spawn ev)) evs = true.

(** [w'] is [w] after some external actions, none of them a spawn. *)
Definition io_only (w w' : World) : Prop :=
  exists evs, w' = extend w evs /\ no_spawn evs.

(** What [_start_stdio_server] has done once the subprocess is spawned and
    entered in [server_processes]. *)
Definition spawned (server : MCPServer) (p : proc) (w : World) : World :=
  set_server_processes <[s_id server := p]>
    (log_event (EvSpawn (s_command server :: s_args server) (s_env server)) w).

(** The event terminates or kills subprocess [q]. *)
Definition ends_process (q : proc) (ev : event) : bool :=
  match ev with
  | EvTerminate p | EvKill p => Z.eqb p q
  | _ => false
  end.

(** Methods that fall to the primary provider. *)
Definition primary_fallback (method : string) : bool :=
  negb (existsb (String.eqb method) list_methods) && negb (String.prefix "tools/call" method).

(** Request parameters as MCP sends them: absent (or otherwise false in
    Python) or an object. *)
Definition params_ok (params : json) : Prop := truthy params = false \/ is_dict params = true.

(** *** Aggregation, in the words of the specification *)

(** The outcome of calling [method] on each attached provider, in attachment
    order. *)
Fixpoint call_each (E : Env) (method : string) (params : json) (servers : list Z)
    (w : World) : World * list (Z * result json) :=
  match servers with
  | [] => (w, [])
  | server_id :: rest =>
      let '(w1, r) := proxy_request E server_id method params w in
      let '(w2, rs) := call_each E method params rest w1 in
      (w2, (server_id, r) :: rs)
  end.

(** The items a response carries: the elements of a list result, or an
    object result itself. *)
Definition items_of (response : json) : list json :=
  match response with
  | JDict d =>
      match dict_get "result" d with
      | Some (JList items) => items
      | Some (JDict r) => [JDict r]
      | _ => []
      end
  | _ => []
  end.

(** An item tagged with its provider; only an object can carry the tag. *)
Definition tag (server_id : Z) (item : json) : option json :=
  match item with
  | JDict d => Some (JDict (dict_set "_server_id" (JNum server_id) d))
  | _ => None
  end.

Definition tagged_with (server_id : Z) (item : json) : Prop :=
  exists d, item = JDict d /\ dict_get "_server_id" d = Some (JNum server_id).

(** What one provider adds to the merged list: its tagged items when the
    call returned and every item took the tag, nothing when it errored. *)
Definition contribution (server_id : Z) (r : result json) : list json :=
  match r with
  | Raise _ => []
  | Return response => default [] (mapM (tag server_id) (items_of response))
  end.

Definition merged (outcomes : list (Z * result json)) : list json :=
  flat_map (fun o => contribution (fst o) (snd o)) outcomes.

(** *** Capability lookup, in the words of the specification *)

(** The objects at the head of a listing, up to the first entry that is no
    object. *)
Fixpoint leading_objects (items : list json) : list dict :=
  match items with
  | JDict d :: rest => d :: leading_objects rest
  | _ => []
  end.

(** The tool described by the object [d] is called [tool_name]. *)
Definition named (tool_name : json) (d : dict) : bool :=
  py_eq (default JNull (dict_get "name" d)) tool_name.

(** Whether the outcome of a provider's tool listing advertises [tool_name]:
    the listing came back as an object whose result is a list, and among the
    entries of that list that come before the first malformed one (an entry
    that is no object) there is a tool called [tool_name]. *)
Definition advertises (tool_name : json) (r : result json) : bool :=
  match r with
  | Return (JDict d) =>
      match dict_get "result" d with
      | Some (JList items) => existsb (named tool_name) (leading_objects items)
      | _ => false
      end
  | _ => false
  end.

(** Probe the providers in attachment order: the first that advertises
    [tool_name] and the providers after it, with the world after the probes. *)
Fixpoint first_advertiser (E : Env) (tool_name : json) (servers : list Z)
    (w : World) : World * option (Z * list Z) :=
  match servers with
  | [] => (w, None)
  | server_id :: rest =>
      let '(w1, r) := proxy_request E server_id "tools/list" JNull w in
      if advertises tool_name r then (w1, Some (server_id, rest))
      else first_advertiser E tool_name rest w1
  end.

(** ** Notions for the rest of the gateway *)

(** The request [proxy_request] sends: a JSON-RPC 2.0 envelope with the
    generated identifier. *)
Definition envelope (request_id method : string) (params : json) : json :=
  JDict [("jsonrpc", JStr "2.0"); ("id", JStr request_id);
         ("method", JStr method); ("params", params)].

(** Where each HTTP-family transport is probed and where it is sent
    requests. *)
Definition probe_path (t : TransportType) : string :=
  match t with SSE => "/sse" | STREAMABLE_HTTP => "/" | _ => "/health" end.

Definition post_path (t : TransportType) : string :=
  match t with SSE => "/sse" | STREAMABLE_HTTP => "/" | _ => "/mcp" end.

Definition http_family (t : TransportType) : bool :=
  match t with HTTP | SSE | STREAMABLE_HTTP => true | _ => false end.

(** Whether a client can be made for the address of [server]: it has a port
    and httpx takes the address. *)
Definition client_built (E : Env) (server : MCPServer) : bool :=
  match s_port server, io_async_client E (mkUrl (s_host server) (s_port server)) with
  | Some _, Return _ => true
  | _, _ => false
  end.

(** Everything that belongs to a provider other than [server_id], and the
    sessions, is the same in [w'] as in [w]. *)
Definition others_untouched (server_id : Z) (w w' : World) : Prop :=
  (forall j, j <> server_id ->
     active_servers w' !! j = active_servers w !! j /\
     server_processes w' !! j = server_processes w !! j /\
     http_clients w' !! j = http_clients w !! j /\
     db_servers w' !! j = db_servers w !! j) /\
  sessions w' = sessions w /\
  db_sessions w' = db_sessions w.

(** [m'] is [m], possibly with a new binding for [i]. *)
Definition same_or_set {V : Type} (i : Z) (m m' : gmap Z V) : Prop :=
  m' = m \/ exists v, m' = <[i := v]> m.

(** What a capability probe makes of the outcome of its [initialize] call. *)
Definition capabilities_of (r : result json) : json :=
  match r with
  | Return (JDict d) => default (JDict []) (dict_get "result" d)
  | _ => JDict []
  end.

Definition sample_http_server (i : Z) (t : TransportType) : MCPServer :=
  {| s_id := i; s_name := "remote"; s_command := ""; s_args := [];
     s_env := []; s_transport_type := t; s_host := "localhost";
     s_port := Some 9000; s_status := INACTIVE; s_last_health_check := None;
     s_health_check_interval := 60; s_auto_restart := true;
     s_max_restarts := 3; s_restart_count := 0 |}.

Definition with_port (server : MCPServer) (port : option Z) : MCPServer :=
  {| s_id := s_id server; s_name := s_name server; s_command := s_command server;
     s_args := s_args server; s_env := s_env server;
     s_transport_type := s_transport_type server; s_host := s_host server;
     s_port := port; s_status := s_status server;
     s_last_health_check := s_last_health_check server;
     s_health_check_interval := s_health_check_interval server;
     s_auto_restart := s_auto_restart server; s_max_restarts := s_max_restarts server;
     s_restart_count := s_restart_count server |}.

(** Provider 5 reached over SSE, beside the two subprocess providers. *)
Definition http_world : World :=
  fst (start_server env_polite (sample_http_server 5 SSE)
         (set_db_servers <[5 := sample_http_server 5 SSE]> running_world)).

(** What a start attempt for [server] may leave behind: the sessions are as
    before, the trace has grown, the provider's own slots in
    [server_processes] and [http_clients] are as before or newly set, and on
    success the provider has a fresh entry in [active_servers] and an
    [ACTIVE] row, while on failure [active_servers] and the rows are as
    before. *)
Definition start_outcome (server : MCPServer) (w w' : World) (b : bool) : Prop :=
  sessions w' = sessions w /\
  db_sessions w' = db_sessions w /\
  (exists evs, trace w' = trace w ++ evs) /\
  same_or_set (s_id server) (server_processes w) (server_processes w') /\
  same_or_set (s_id server) (http_clients w) (http_clients w') /\
  if b then
    (exists info, active_servers w' = <[s_id server := info]> (active_servers w)) /\
    match db_servers w !! s_id server with
    | Some row =>
        exists now, db_servers w' = <[s_id server := with_status row ACTIVE now]> (db_servers w)
    | None => db_servers w' = db_servers w
    end
  else
    active_servers w' = active_servers w /\ db_servers w' = db_servers w.

(** What [stop_server] may leave behind: nothing changes for a provider
    without a registered transport; otherwise on success the provider is
    gone from the three registries and its row is [INACTIVE], and on failure
    registries and rows are as before.  No subprocess is spawned. *)
Definition stop_outcome (server_id : Z) (w w' : World) (b : bool) : Prop :=
  sessions w' = sessions w /\
  db_sessions w' = db_sessions w /\
  (exists evs, trace w' = trace w ++ evs /\ no_spawn evs) /\
  match active_servers w !! server_id with
  | None => b = true /\ w' = w
  | Some _ =>
      if b then
        active_servers w' = delete server_id (active_servers w) /\
        server_processes w' = delete server_id (server_processes w) /\
        http_clients w' = delete server_id (http_clients w) /\
        match db_servers w !! server_id with
        | Some row =>
            exists now,
              db_servers w' = <[server_id := with_status row INACTIVE now]> (db_servers w)
        | None => db_servers w' = db_servers w
        end
      else
        active_servers w' = active_servers w /\
        server_processes w' = server_processes w /\
        http_clients w' = http_clients w /\
        db_servers w' = db_servers w
  end.

(** The parameters of the [initialize] call of a capability probe. *)
Definition initialize_params : json :=
  JDict [("protocolVersion", JStr "2024-11-05"); ("capabilities", JDict [])].

(** The polite environment with another behaviour of the pipes' read end. *)
Definition env_with_readline (f : list event -> proc -> Z -> result line) : Env :=
  {| io_spawn := io_spawn env_polite;
     io_stdin_write := io_stdin_write env_polite;
     io_readline := f;
     io_terminate := io_terminate env_polite;
     io_wait := io_wait env_polite;
     io_kill := io_kill env_polite;
     io_async_client := io_async_client env_polite;
     io_http_get := io_http_get env_polite;
     io_http_post := io_http_post env_polite;
     io_aclose := io_aclose env_polite;
     io_utcnow := io_utcnow env_polite;
     io_uuid4 := io_uuid4 env_polite |}.

(** Providers that list their tools but never answer a tool call. *)
Definition env_flaky : Env :=
  env_with_readline (fun tr p timeout =>
    match last_write p tr with
    | Some req =>
        if String.eqb (request_method req) "tools/call" then Raise TimeoutError
        else Return (Json (polite_reply p req))
    | None => Raise TimeoutError
    end).

(** Provider 1 alone attached to session ["s"]. *)
Definition flaky_world : World := attach_session "s" [1] running_world.

(** Providers whose listings hold an object and a bare string. *)
Definition env_mixed_items : Env :=
  env_with_readline (fun tr p timeout =>
    Return (Json (JDict [("jsonrpc", JStr "2.0");
                         ("result", JList [JDict [("name", JStr "echo")]; JStr "odd"])]))).

(** What a health check may leave behind: registries and sessions as before,
    no subprocess spawned, and at most the status and timestamp of the
    provider's own row rewritten. *)
Definition health_outcome (server_id : Z) (w w' : World) (b : bool) : Prop :=
  active_servers w' = active_servers w /\
  server_processes w' = server_processes w /\
  http_clients w' = http_clients w /\
  sessions w' = sessions w /\
  db_sessions w' = db_sessions w /\
  (exists evs, trace w' = trace w ++ evs /\ no_spawn evs) /\
  (db_servers w' = db_servers w \/
   exists row now,
     db_servers w !! server_id = Some row /\
     db_servers w' = <[server_id := with_status row (if b then ACTIVE else ERROR) now]>
                        (db_servers w)).

(** No session has a provider attached. *)
Definition unattached (w : World) : Prop :=
  forall session_id s, sessions w !! session_id = Some s -> connected_servers s = [].

(** The calls the API layer makes into the manager and the gateway. *)
Inductive gateway_call : Type :=
| CallStart (server : MCPServer)
| CallStop (server_id : Z)
| CallHealthCheck (server_id : Z)
| CallCapabilities (server_id : Z)
| CallCreateSession (client_type : string) (client_info : json)
| CallRoute (session_id method : string) (params : json)
| CallHandle (body : line) (current_user : json).

(** The world after one call, whatever it returned or raised. *)
Definition run_call (E : Env) (c : gateway_call) (w : World) : World :=
  match c with
  | CallStart server => fst (start_server E server w)
  | CallStop server_id => fst (stop_server E server_id w)
  | CallHealthCheck server_id => fst (health_check E server_id w)
  | CallCapabilities server_id => fst (get_server_capabilities E server_id w)
  | CallCreateSession client_type client_info =>
      fst (create_session E client_type client_info w)
  | CallRoute session_id method params => fst (route_request E session_id method params w)
  | CallHandle body current_user => fst (handle_mcp_request E body current_user w)
  end.

Fixpoint run_calls (E : Env) (cs : list gateway_call) (w : World) : World :=
  match cs with
  | [] => w
  | c :: cs' => run_calls E cs' (run_call E c w)
  end.

(** ** The health loop ([server.py]) *)

(** [datetime] values and their differences, in microseconds. *)
Definition seconds (n : Z) : Z := n * 1000000.

Definition is_active_status (st : ServerStatus) : bool :=
  match st with ACTIVE => true | _ => false end.

(** [db.query(MCPServer).filter(MCPServer.status == ServerStatus.ACTIVE).all()],
    as the primary keys of the rows found. *)
Definition active_ids (w : World) : list Z :=
  map fst (List.filter (fun kv => is_active_status (s_status (snd kv)))
             (map_to_list (db_servers w))).

(** [not server.last_health_check or
     datetime.utcnow() - server.last_health_check
       > timedelta(seconds=server.health_check_interval)] *)
Definition check_due (E : Env) (server : MCPServer) : M bool :=
  match s_last_health_check server with
  | None => ret true
  | Some last =>
      let* now := utcnow E in
      ret (Z.ltb (seconds (s_health_check_interval server)) (now - last))
  end.

(** The [for server in active_servers] loop.  The attributes of [server] are
    read from its row as it is when the turn comes (the session expires its
    objects at every commit); a row that is gone raises. *)
Fixpoint health_tick_loop (E : Env) (ids : list Z) : M unit :=
  match ids with
  | [] => ret tt
  | server_id :: rest =>
      let* row := get (fun w => db_servers w !! server_id) in
      match row with
      | None => raise (OSError "ObjectDeletedError")
      | Some server =>
          let* due := check_due E server in
          (if due then health_check E server_id ;; ret tt else ret tt) ;;
          health_tick_loop E rest
      end
  end.

(** One turn of [while True] in [health_check_loop], without the sleep that
    ends it: the query, the loop, and the [except] that prints and goes on. *)
Definition health_check_tick (E : Env) : M unit :=
  try_except
    (let* ids := get active_ids in health_tick_loop E ids)
    (fun _ => ret tt).

(** Two rows that differ at most in status and time of the last check. *)
Definition same_config (a b : MCPServer) : Prop :=
  s_id b = s_id a /\ s_name b = s_name a /\ s_command b = s_command a /\
  s_args b = s_args a /\ s_env b = s_env a /\
  s_transport_type b = s_transport_type a /\ s_host b = s_host a /\
  s_port b = s_port a /\ s_health_check_interval b = s_health_check_interval a /\
  s_auto_restart b = s_auto_restart a /\ s_max_restarts b = s_max_restarts a /\
  s_restart_count b = s_restart_count a.

(** What a health tick may do when it only checks providers in [P]: the
    registries and sessions stay, nothing is spawned, rows outside [P] stay,
    and every row keeps its configuration and its restart counter. *)
Definition tick_rel (P : Z -> Prop) (w w' : World) : Prop :=
  active_servers w' = active_servers w /\
  server_processes w' = server_processes w /\
  http_clients w' = http_clients w /\
  sessions w' = sessions w /\
  db_sessions w' = db_sessions w /\
  (exists evs, trace w' = trace w ++ evs /\ no_spawn evs) /\
  (forall server_id, ~ P server_id -> db_servers w' !! server_id = db_servers w !! server_id) /\
  (forall server_id row,
     db_servers w !! server_id = Some row ->
     exists row', db_servers w' !! server_id = Some row' /\ same_config row row').

(** The database says providers 1 and 2 are active, but no transport is
    registered, as after a restart of the gateway process. *)
Definition restarted_world : World :=
  set_http_clients (fun _ => ∅)
    (set_server_processes (fun _ => ∅)
       (set_active_servers (fun _ => ∅) running_world)).

(** ** One-time authorization codes ([auth.py]) *)

(** Entry of [authorization_codes]. *)
Record code_data : Type := mkCode {
  cd_client_id : string;
  cd_redirect_uri : string;
  cd_scope : option string;
  cd_created_at : Z;
  cd_used : bool
}.

Definition mark_used (d : code_data) : code_data :=
  {| cd_client_id := cd_client_id d; cd_redirect_uri := cd_redirect_uri d;
     cd_scope := cd_scope d; cd_created_at := cd_created_at d; cd_used := true |}.

(** [code] is what [secrets.token_urlsafe(32)] gave and [now] what
    [datetime.utcnow()] gave. *)
Definition create_authorization_code (code : string) (now : Z)
    (client_id redirect_uri : string) (scope : option string)
    (codes : gmap string code_data) : gmap string code_data * string :=
  (<[code := mkCode client_id redirect_uri scope now false]> codes, code).

(** The store after the call and the code data returned, [None] for
    Python's [None]; [now] is the clock at the expiry test. *)
Definition verify_authorization_code (now : Z) (code client_id redirect_uri : string)
    (codes : gmap string code_data) : gmap string code_data * option code_data :=
  match codes !! code with
  | None => (codes, None)
  | Some d =>
      if cd_used d then (codes, None)
      else if Z.ltb (seconds 600) (now - cd_created_at d) then (delete code codes, None)
      else if negb (String.eqb (cd_client_id d) client_id)
              || negb (String.eqb (cd_redirect_uri d) redirect_uri)
      then (codes, None)
      else (<[code := mark_used d]> codes, Some (mark_used d))
  end.

(** ** Permission checks ([auth.py]) *)

(** [f"Permission '{permission}' required"] *)
Definition permission_required (permission : string) : exn :=
  HTTPException 403
    (Msg (String.append "Permission '" (String.append permission "' required"))).

(** The [permission_checker] that [require_permission(permission)] returns,
    applied to [current_user]. *)
Definition require_permission (permission : string) (current_user : json) : result json :=
  match py_getitem current_user "type" with
  | Raise e => Raise e
  | Return type =>
      if py_eq type (JStr "oauth") then
        match py_get current_user "scope" (JStr "") with
        | Raise e => Raise e
        | Return scope =>
            match py_in permission scope with
            | Raise e => Raise e
            | Return found =>
                if negb found then Raise (permission_required permission)
                else Return current_user
            end
        end
      else if py_eq type (JStr "api_key") then
        match py_get current_user "permissions" (JList []) with
        | Raise e => Raise e
        | Return permissions =>
            match py_in permission permissions with
            | Raise e => Raise e
            | Return found =>
                if negb found then
                  match py_in "admin" permissions with
                  | Raise e => Raise e
                  | Return admin =>
                      if negb admin then Raise (permission_required permission)
                      else Return current_user
                  end
                else Return current_user
            end
        end
      else Return current_user
  end.

(** [TokenData], what [verify_token] decodes from a bearer token. *)
Record TokenData : Type := mkTokenData {
  td_client_id : option string;
  td_scope : option string;
  td_session_id : option string
}.

(** The columns of an [APIKey] row that [get_current_user] reads. *)
Record APIKey : Type := mkAPIKey {
  ak_id : Z;
  ak_name : string;
  ak_permissions : json
}.

Definition opt_str (o : option string) : json :=
  match o with Some s => JStr s | None => JNull end.

(** The two arguments are what the dependencies [get_current_user_oauth] and
    [get_current_user_api_key] returned. *)
Definition get_current_user (oauth_user : option TokenData) (api_key_user : option APIKey)
    : result json :=
  match oauth_user with
  | Some oauth_user =>
      Return (JDict [("type", JStr "oauth");
                     ("client_id", opt_str (td_client_id oauth_user));
                     ("scope", opt_str (td_scope oauth_user));
                     ("session_id", opt_str (td_session_id oauth_user))])
  | None =>
      match api_key_user with
      | Some api_key_user =>
          Return (JDict [("type", JStr "api_key");
                         ("key_id", JNum (ak_id api_key_user));
                         ("name", JStr (ak_name api_key_user));
                         ("permissions", ak_permissions api_key_user)])
      | None => Raise (HTTPException 401 (Msg "Authentication required"))
      end
  end.

(** ** [N8NAdapter] ([adapters/n8n.py]) *)

Section N8NAdapter.
Context (E : Env).

Definition init_request : json :=
  JDict [("jsonrpc", JStr "2.0"); ("id", JNum 1); ("method", JStr "initialize");
         ("params", JDict [("protocolVersion", JStr "2024-11-05");
                           ("capabilities", JDict []);
                           ("clientInfo", JDict [("name", JStr "mcp-host");
                                                 ("version", JStr "1.0.0")])])].

Definition _test_n8n_connection (process : proc) : M bool :=
  try_except
    (stdin_write E process init_request ;;
     except_timeout
       (let* response_line := readline E process 10 in
        let* response := lift (json_loads response_line) in
        let* version := lift (py_get response "jsonrpc" JNull) in
        if py_eq version (JStr "2.0") then
          let* has_result := lift (py_in "result" response) in
          if has_result then
            let* result := lift (py_getitem response "result") in
            let* capabilities := lift (py_get result "capabilities" (JDict [])) in
            ret true
          else ret false
        else ret false)
       (ret false))
    (fun _ => ret false).

End N8NAdapter.

(** * Properties *)

(** ** Health check *)

(** C10: for a server with no entry in [active_servers], [health_check]
    returns [False] at once and changes nothing: no status transition, no
    timestamp, no registry change and no external action. *)
Theorem health_check_unregistered_noop (E : Env) (server_id : Z) (w : World) :
  active_servers w !! server_id = None ->
  health_check E server_id w = (w, Return false).
Proof.
  intros Hnone. unfold health_check. simpl. rewrite Hnone. reflexivity.
Qed.

Lemma health_check_unregistered_noop_witness :
  active_servers configured_world !! 1 = None /\
  health_check env_polite 1 configured_world = (configured_world, Return false).
Proof.
  split; [reflexivity | apply (health_check_unregistered_noop env_polite 1 configured_world); reflexivity].
Defined.

(** ** Routing preconditions *)

(** C9: routing with an unknown session identifier raises 404 "Session not
    found"; a primary-fallback method in a session with no attached provider
    raises 400 "No servers connected to session"; with providers attached
    the request is forwarded to the first of them. *)
Theorem route_request_preconditions (E : Env) (session_id method : string)
    (params : json) (w : World) :
  (sessions w !! session_id = None ->
   route_request E session_id method params w
   = (w, Raise (HTTPException 404 (Msg "Session not found")))) /\
  (forall s, sessions w !! session_id = Some s ->
     primary_fallback method = true ->
     match connected_servers s with
     | [] =>
         route_request E session_id method params w
         = (w, Raise (HTTPException 400 (Msg "No servers connected to session")))
     | primary :: _ =>
         route_request E session_id method params w
         = proxy_request E primary method params w
     end).
Proof.
  split.
  - intros Hnone. unfold route_request. simpl. rewrite Hnone. reflexivity.
  - intros s Hs Hm. unfold primary_fallback in Hm.
    apply andb_true_iff in Hm as [Hl Hc].
    apply negb_true_iff in Hl. apply negb_true_iff in Hc.
    unfold route_request. cbn [bind get]. rewrite Hs, Hl, Hc.
    unfold _route_to_primary_server.
    destruct (connected_servers s); reflexivity.
Qed.

Lemma route_request_preconditions_witness :
  route_request env_polite "unknown" "ping" JNull running_world
  = (running_world, Raise (HTTPException 404 (Msg "Session not found"))) /\
  route_request env_polite "s" "ping" JNull (attach_session "s" [] running_world)
  = (attach_session "s" [] running_world,
     Raise (HTTPException 400 (Msg "No servers connected to session"))) /\
  route_request env_polite "s" "ping" JNull (attach_session "s" [2; 1] running_world)
  = proxy_request env_polite 2 "ping" JNull (attach_session "s" [2; 1] running_world).
Proof.
  split; [| split].
  - apply (route_request_preconditions env_polite "unknown" "ping" JNull running_world).
    vm_compute. reflexivity.
  - apply (proj2 (route_request_preconditions env_polite "s" "ping" JNull
                    (attach_session "s" [] running_world))
             (mkSession "api" (JDict []) [] 0)).
    + vm_compute. reflexivity.
    + reflexivity.
  - apply (proj2 (route_request_preconditions env_polite "s" "ping" JNull
                    (attach_session "s" [2; 1] running_world))
             (mkSession "api" (JDict []) [2; 1] 0)).
    + vm_compute. reflexivity.
    + reflexivity.
Defined.

(** ** Frame lemmas: what a call leaves alone *)

Lemma extend_nil (w : World) : extend w [] = w.
Proof. destruct w. unfold extend. simpl. rewrite app_nil_r. reflexivity. Qed.

Lemma extend_extend (w : World) (a b : list event) :
  extend (extend w a) b = extend w (a ++ b).
Proof. unfold extend. simpl. rewrite app_assoc. reflexivity. Qed.

Lemma log_event_extend (ev : event) (w : World) : log_event ev w = extend w [ev].
Proof. reflexivity. Qed.

Lemma no_spawn_app (a b : list event) : no_spawn a -> no_spawn b -> no_spawn (a ++ b).
Proof. unfold no_spawn. intros Ha Hb. rewrite forallb_app, Ha, Hb. reflexivity. Qed.

Lemma io_only_refl (w : World) : io_only w w.
Proof. exists []. split; [symmetry; apply extend_nil | reflexivity]. Qed.

Lemma io_only_trans (w1 w2 w3 : World) : io_only w1 w2 -> io_only w2 w3 -> io_only w1 w3.
Proof.
  intros (a & -> & Ha) (b & -> & Hb). exists (a ++ b).
  split; [apply extend_extend | apply no_spawn_app; assumption].
Qed.

Lemma io_only_event (ev : event) (w : World) : is_spawn ev = false -> io_only w (log_event ev w).
Proof.
  intros Hev. exists [ev]. split; [reflexivity |].
  unfold no_spawn. simpl. rewrite Hev. reflexivity.
Qed.

Ltac frame_step :=
  match goal with
  | |- io_only ?w ?w => apply io_only_refl
  | |- io_only ?w (log_event ?ev ?w) => apply io_only_event; reflexivity
  | |- io_only ?w (log_event ?ev ?w') =>
      apply (io_only_trans w w'); [| apply io_only_event; reflexivity]
  end.

Lemma proxy_request_io_only (E : Env) (server_id : Z) (method : string)
    (params : json) (w : World) :
  io_only w (fst (proxy_request E server_id method params w)).
Proof.
  unfold proxy_request, uuid4, _proxy_stdio_request, _proxy_http_request,
    stdin_write, readline, http_post. simpl.
  destruct (active_servers w !! server_id) as [info|]; [| simpl; frame_step].
  destruct info as [srv p t | srv c t]; simpl.
  - destruct (io_stdin_write E _ p _); simpl; [| repeat frame_step].
    destruct (io_readline E _ p _) as [l|]; simpl; [| repeat frame_step].
    destruct (json_loads l); simpl; repeat frame_step.
  - destruct (s_transport_type srv); simpl;
      (destruct (io_http_post E _ c _ _) as [l|]; simpl; [| repeat frame_step];
       destruct (json_loads l); simpl; repeat frame_step).
Qed.

(** [proxy_request] never returns to a state other than the one it extends. *)
Lemma proxy_request_shape (E : Env) (server_id : Z) (method : string)
    (params : json) (w : World) :
  exists evs r, proxy_request E server_id method params w = (extend w evs, r) /\ no_spawn evs.
Proof.
  destruct (proxy_request_io_only E server_id method params w) as (evs & Hw & Hevs).
  destruct (proxy_request E server_id method params w) as [w' r] eqn:Hrun.
  simpl in Hw. subst w'. exists evs, r. split; [reflexivity | assumption].
Qed.

Lemma update_server_status_row (E : Env) (server_id : Z) (st : ServerStatus)
    (w : World) (row : MCPServer) :
  db_servers w !! server_id = Some row ->
  _update_server_status E server_id st w
  = (set_db_servers <[server_id := with_status row st (io_utcnow E (trace w))]>
       (log_event EvUtcnow w), Return tt).
Proof.
  intros Hrow. unfold _update_server_status, utcnow. simpl. rewrite Hrow. reflexivity.
Qed.

Lemma update_server_status_no_row (E : Env) (server_id : Z) (st : ServerStatus) (w : World) :
  db_servers w !! server_id = None ->
  _update_server_status E server_id st w = (w, Return tt).
Proof.
  intros Hrow. unfold _update_server_status. simpl. rewrite Hrow. reflexivity.
Qed.

(** C3, as the code has it: for a provider with a registered transport and a
    row in the database, [health_check] pings it once; when the ping returns
    the row becomes [ACTIVE], when it raises the row becomes [ERROR], and in
    both cases the timestamp is refreshed and the call returns that outcome.
    No restart is ever scheduled: no subprocess is spawned, the registries
    are untouched and [restart_count] keeps its value, whatever
    [auto_restart] and [max_restarts] say. *)
Theorem health_check_registered (E : Env) (server_id : Z) (w : World)
    (info : server_info) (row : MCPServer) :
  active_servers w !! server_id = Some info ->
  db_servers w !! server_id = Some row ->
  exists evs r,
    proxy_request E server_id "ping" JNull w = (extend w evs, r) /\
    let ok := match r with Return _ => true | Raise _ => false end in
    let row' := with_status row (if ok then ACTIVE else ERROR)
                  (io_utcnow E (trace w ++ evs)) in
    health_check E server_id w
    = (set_db_servers <[server_id := row']> (extend w (evs ++ [EvUtcnow])), Return ok) /\
    s_restart_count row' = s_restart_count row /\
    s_auto_restart row' = s_auto_restart row /\
    s_max_restarts row' = s_max_restarts row /\
    no_spawn (evs ++ [EvUtcnow]).
Proof.
  intros Hinfo Hrow.
  destruct (proxy_request_shape E server_id "ping" JNull w) as (evs & r & Hrun & Hevs).
  exists evs, r. split; [exact Hrun |]. cbv zeta.
  split; [| repeat split; try reflexivity; apply no_spawn_app; [exact Hevs | reflexivity]].
  unfold health_check. simpl. rewrite Hinfo. simpl. rewrite Hrun.
  assert (Hrow' : db_servers (extend w evs) !! server_id = Some row) by exact Hrow.
  destruct r as [response | e]; simpl;
    rewrite (update_server_status_row E server_id _ _ row Hrow');
    rewrite log_event_extend, extend_extend; reflexivity.
Qed.

Lemma health_check_registered_witness :
  exists evs r,
    proxy_request env_exited 1 "ping" JNull running_world = (extend running_world evs, r) /\
    health_check env_exited 1 running_world
    = (set_db_servers
         <[1 := with_status (with_status (sample_server 1) ACTIVE 4) ERROR
                  (io_utcnow env_exited (trace running_world ++ evs))]>
         (extend running_world (evs ++ [EvUtcnow])), Return false).
Proof.
  destruct (health_check_registered env_exited 1 running_world
              (StdioInfo (sample_server 1) 100 3)
              (with_status (sample_server 1) ACTIVE 4))
    as (evs & r & Hrun & Hhc & _); [vm_compute; reflexivity | vm_compute; reflexivity |].
  exists evs, r. split; [exact Hrun |].
  assert (Hr : r = Raise (HTTPException 500 (RequestFailed (OSError "BrokenPipeError")))).
  { assert (Hsnd : snd (proxy_request env_exited 1 "ping" JNull running_world) = r)
      by (rewrite Hrun; reflexivity).
    rewrite <- Hsnd. vm_compute. reflexivity. }
  rewrite Hr in Hhc. exact Hhc.
Defined.

(** C3 fails as stated: provider 1 has [auto_restart] set and none of its
    three restarts used; its health check fails, the row goes to [ERROR], and
    yet the restart counter is not incremented and no subprocess is spawned. *)
Lemma health_check_no_restart_counterexample :
  let w' := fst (health_check env_exited 1 running_world) in
  snd (health_check env_exited 1 running_world) = Return false /\
  (s_auto_restart <$> db_servers running_world !! 1) = Some true /\
  (s_restart_count <$> db_servers running_world !! 1) = Some 0 /\
  (s_max_restarts <$> db_servers running_world !! 1) = Some 3 /\
  (s_status <$> db_servers w' !! 1) = Some ERROR /\
  (s_restart_count <$> db_servers w' !! 1) <> Some 1 /\
  count_spawns (trace w') = count_spawns (trace running_world).
Proof.
  vm_compute. repeat split; discriminate.
Qed.

(** ** Starting a provider *)

Ltac close_shape :=
  rewrite ?log_event_extend, ?extend_extend; simpl;
  repeat match goal with
         | |- context [if is_timeout ?e then _ else _] => destruct (is_timeout e); simpl
         end;
  do 2 eexists; split; reflexivity.

Lemma test_stdio_connection_shape (E : Env) (p : proc) (w : World) :
  exists evs ok, _test_stdio_connection E p w = (extend w evs, Return ok) /\ no_spawn evs.
Proof.
  unfold _test_stdio_connection, stdin_write, readline. simpl.
  destruct (io_stdin_write E _ p _); simpl; [| close_shape].
  destruct (io_readline E _ p _) as [l | e]; simpl.
  - destruct (json_loads l) as [response | e]; simpl; [| close_shape].
    destruct (py_in "jsonrpc" response) as [ok | e]; simpl; close_shape.
  - close_shape.
Qed.

Ltac quiet_shape :=
  rewrite ?log_event_extend, ?extend_extend; simpl;
  repeat match goal with
         | |- context [if is_timeout ?e then _ else _] => destruct (is_timeout e); simpl
         end;
  do 2 eexists; (split; [reflexivity | split; [reflexivity | intros ?; reflexivity]]).

(** The handshake writes and reads; it ends no subprocess. *)
Lemma test_stdio_connection_quiet (E : Env) (p : proc) (w : World) :
  exists evs ok,
    _test_stdio_connection E p w = (extend w evs, Return ok) /\
    no_spawn evs /\
    forall q, existsb (ends_process q) evs = false.
Proof.
  unfold _test_stdio_connection, stdin_write, readline. simpl.
  destruct (io_stdin_write E _ p _); simpl; [| quiet_shape].
  destruct (io_readline E _ p _) as [l | e]; simpl.
  - destruct (json_loads l) as [response | e]; simpl; [| quiet_shape].
    destruct (py_in "jsonrpc" response) as [ok | e]; simpl; quiet_shape.
  - quiet_shape.
Qed.

(** C4, evaluated on the code: when the subprocess of a stdio provider is
    spawned and its handshake fails, [start_server] returns [False], but the
    status row is left as it was (no transition to [ERROR]) and the
    subprocess stays entered in [server_processes]; only [active_servers]
    gets no entry. *)
Theorem start_stdio_failed_handshake (E : Env) (server : MCPServer) (w : World) (p : proc) :
  s_transport_type server = STDIO ->
  io_spawn E (trace w) (s_command server :: s_args server) (s_env server) = Return p ->
  snd (_test_stdio_connection E p (spawned server p w)) = Return false ->
  exists w',
    start_server E server w = (w', Return false) /\
    db_servers w' = db_servers w /\
    server_processes w' !! s_id server = Some p /\
    active_servers w' = active_servers w.
Proof.
  intros Hstdio Hspawn Hfail.
  destruct (test_stdio_connection_shape E p (spawned server p w)) as (evs & ok & Hrun & _).
  rewrite Hrun in Hfail. simpl in Hfail. injection Hfail as ->.
  unfold start_server. rewrite Hstdio. unfold _start_stdio_server, kill, wait. simpl.
  rewrite Hspawn. simpl. fold (spawned server p w). rewrite Hrun. simpl.
  assert (Hprocs : forall evs', server_processes (extend (spawned server p w) evs') !! s_id server = Some p).
  { intros evs'. unfold extend, spawned, set_server_processes. simpl. apply lookup_insert_eq. }
  destruct (io_kill E _ p); simpl.
  - destruct (io_wait E _ p None); simpl; eexists; (split; [reflexivity |]);
      rewrite !log_event_extend, !extend_extend; (split; [reflexivity | split; [apply Hprocs | reflexivity]]).
  - eexists. split; [reflexivity |].
    rewrite !log_event_extend, !extend_extend. split; [reflexivity | split; [apply Hprocs | reflexivity]].
Qed.

Lemma start_stdio_failed_handshake_witness :
  exists w',
    start_server env_silent (sample_server 1) configured_world = (w', Return false) /\
    db_servers w' = db_servers configured_world /\
    server_processes w' !! 1 = Some 100 /\
    active_servers w' = active_servers configured_world.
Proof.
  apply (start_stdio_failed_handshake env_silent (sample_server 1) configured_world 100);
    vm_compute; reflexivity.
Defined.

(** The same run, read off the final state: the row of provider 1 is still
    [INACTIVE] and subprocess 100 is still registered. *)
Example start_silent_provider :
  let w' := fst (start_server env_silent (sample_server 1) configured_world) in
  snd (start_server env_silent (sample_server 1) configured_world) = Return false /\
  (s_status <$> db_servers w' !! 1) = Some INACTIVE /\
  server_processes w' !! 1 = Some 100 /\
  active_servers w' !! 1 = None.
Proof. vm_compute. repeat split. Qed.

(** *** What a start attempt leaves behind *)

(** Read the fields of a world built from setters without unfolding the
    world itself. *)
Ltac world_proj :=
  lazy [spawned log_event extend set_active_servers set_server_processes
        set_http_clients set_db_servers set_sessions set_db_sessions
        active_servers server_processes http_clients sessions db_servers
        db_sessions trace].

Ltac mstep := cbn [try_except except_timeout bind perform modify ret raise lift get].

Ltac solve_outcome :=
  do 2 eexists; split; [reflexivity |];
  unfold start_outcome, same_or_set; world_proj;
  repeat rewrite <- app_assoc; cbn [app];
  repeat match goal with
         | |- _ /\ _ => split
         | |- _ = _ => reflexivity
         | |- exists _, _ = _ => eexists; reflexivity
         | |- ?a = ?b \/ _ =>
             first [constr_eq a b; left; reflexivity | right; eexists; reflexivity]
         end.

Lemma start_stdio_cases (E : Env) (server : MCPServer) (w : World) :
  exists w' b, _start_stdio_server E server w = (w', Return b) /\ start_outcome server w w' b.
Proof.
  unfold _start_stdio_server, kill, wait, utcnow. mstep.
  destruct (io_spawn E (trace w) _ _) as [p | e]; mstep; [| solve_outcome].
  fold (spawned server p w).
  destruct (test_stdio_connection_shape E p (spawned server p w)) as (evs & ok & Hrun & _).
  rewrite Hrun. destruct ok; mstep.
  - destruct (db_servers w !! s_id server) as [row |] eqn:Hrow.
    + erewrite update_server_status_row by (world_proj; exact Hrow). mstep.
      do 2 eexists. split; [reflexivity |].
      unfold start_outcome, same_or_set. rewrite Hrow. world_proj.
      repeat rewrite <- app_assoc. cbn [app].
      repeat split; try (eexists; reflexivity).
      * right. eexists. reflexivity.
      * left. reflexivity.
    + rewrite update_server_status_no_row by (world_proj; exact Hrow). mstep.
      do 2 eexists. split; [reflexivity |].
      unfold start_outcome, same_or_set. rewrite Hrow. world_proj.
      repeat rewrite <- app_assoc. cbn [app].
      repeat split; try (eexists; reflexivity).
      * right. eexists. reflexivity.
      * left. reflexivity.
  - destruct (io_kill E _ p); mstep; [destruct (io_wait E _ p None); mstep |];
      solve_outcome.
Qed.

(** The successful branch of [_start_http_server], from the world [w1]
    reached by the probe. *)
Lemma start_http_accepted (E : Env) (server : MCPServer) (w w1 : World) (evs : list event) :
  w1 = extend w evs ->
  let client := mkUrl (s_host server) (s_port server) in
  exists w',
    (modify (set_http_clients <[s_id server := client]>);;
     let* now := utcnow E in
     modify (set_active_servers <[s_id server := HttpInfo server client now]>);;
     _update_server_status E (s_id server) ACTIVE;; ret true) w1 = (w', Return true) /\
    start_outcome server w w' true /\
    server_processes w' = server_processes w /\
    http_clients w' = <[s_id server := client]> (http_clients w) /\
    active_servers w'
    = <[s_id server := HttpInfo server client (io_utcnow E (trace w ++ evs))]>
        (active_servers w) /\
    exists evs',
      trace w' = trace w ++ evs ++ evs' /\ Forall (fun ev => ev = EvUtcnow) evs'.
Proof.
  intros ->. cbv zeta. unfold utcnow. mstep.
  destruct (db_servers w !! s_id server) as [row |] eqn:Hrow.
  - erewrite update_server_status_row by (world_proj; exact Hrow). mstep.
    eexists. split; [reflexivity |].
    unfold start_outcome, same_or_set. rewrite Hrow. world_proj.
    repeat rewrite <- app_assoc. cbn [app].
    repeat split; try (eexists; reflexivity).
    + left. reflexivity.
    + right. eexists. reflexivity.
    + exists [EvUtcnow; EvUtcnow]. split; [reflexivity | repeat constructor].
  - rewrite update_server_status_no_row by (world_proj; exact Hrow). mstep.
    eexists. split; [reflexivity |].
    unfold start_outcome, same_or_set. rewrite Hrow. world_proj.
    repeat rewrite <- app_assoc. cbn [app].
    repeat split; try (eexists; reflexivity).
    + left. reflexivity.
    + right. eexists. reflexivity.
    + exists [EvUtcnow]. split; [reflexivity | repeat constructor].
Qed.

(** The failing branch: the client is closed and nothing is kept. *)
Lemma start_http_refused (E : Env) (server : MCPServer) (w : World) (ev : event) :
  let client := mkUrl (s_host server) (s_port server) in
  exists w',
    (let (w0, r) := (aclose E client;; ret false) (log_event ev w) in
     match r with
     | Return a => (w0, Return a)
     | Raise _ => (w0, Return false)
     end) = (w', Return false) /\
    start_outcome server w w' false /\
    server_processes w' = server_processes w /\
    http_clients w' = http_clients w /\
    trace w' = trace w ++ [ev; EvAclose client].
Proof.
  cbv zeta. unfold aclose. mstep.
  destruct (io_aclose E _ _); mstep;
    (eexists; split; [reflexivity |];
     unfold start_outcome, same_or_set; world_proj;
     repeat rewrite <- app_assoc; cbn [app];
     repeat split; try (left; reflexivity); eexists; reflexivity).
Qed.

Lemma test_http_connection_run (E : Env) (client : base_url) (server : MCPServer) (w : World) :
  _test_http_connection E client server w
  = (log_event (EvHttpGet client (probe_path (s_transport_type server))) w,
     Return match io_http_get E (trace w) client (probe_path (s_transport_type server)) with
            | Return code => existsb (Z.eqb code) [200; 201; 202]
            | Raise _ => false
            end).
Proof.
  unfold _test_http_connection, http_get, probe_path.
  destruct (s_transport_type server); mstep;
    destruct (io_http_get E (trace w) client _); reflexivity.
Qed.

Lemma start_outcome_nothing (server : MCPServer) (w : World) :
  start_outcome server w w false.
Proof.
  unfold start_outcome, same_or_set. repeat split; try (left; reflexivity).
  exists []. symmetry. apply app_nil_r.
Qed.

Lemma async_client_run (E : Env) (server : MCPServer) (w : World) :
  if client_built E server then
    async_client E server w = (w, Return (mkUrl (s_host server) (s_port server)))
  else exists e, async_client E server w = (w, Raise e).
Proof.
  unfold client_built, async_client. cbv zeta.
  destruct (s_port server) as [port |]; [| eexists; reflexivity].
  cbn [bind lift ret].
  destruct (io_async_client E _) as [[] | e]; [reflexivity | eexists; reflexivity].
Qed.

Lemma start_http_run (E : Env) (server : MCPServer) (w : World) :
  let client := mkUrl (s_host server) (s_port server) in
  let path := probe_path (s_transport_type server) in
  if client_built E server then
    let accepted :=
      match io_http_get E (trace w) client path with
      | Return code => existsb (Z.eqb code) [200; 201; 202]
      | Raise _ => false
      end in
    exists w',
      _start_http_server E server w = (w', Return accepted) /\
      start_outcome server w w' accepted /\
      server_processes w' = server_processes w /\
      if accepted then
        http_clients w' = <[s_id server := client]> (http_clients w) /\
        active_servers w'
        = <[s_id server := HttpInfo server client
                             (io_utcnow E (trace w ++ [EvHttpGet client path]))]>
            (active_servers w) /\
        exists evs',
          trace w' = trace w ++ EvHttpGet client path :: evs' /\
          Forall (fun ev => ev = EvUtcnow) evs'
      else
        http_clients w' = http_clients w /\
        active_servers w' = active_servers w /\
        db_servers w' = db_servers w /\
        trace w' = trace w ++ [EvHttpGet client path; EvAclose client]
  else _start_http_server E server w = (w, Return false).
Proof.
  cbv zeta. unfold _start_http_server. cbn [try_except bind].
  pose proof (async_client_run E server w) as Hclient.
  destruct (client_built E server).
  2: { destruct Hclient as [e ->]. reflexivity. }
  rewrite Hclient.
  rewrite test_http_connection_run.
  destruct (match io_http_get E (trace w) _ _ with
            | Return code => existsb (Z.eqb code) [200; 201; 202]
            | Raise _ => false
            end).
  - destruct (start_http_accepted E server w
                (log_event (EvHttpGet (mkUrl (s_host server) (s_port server))
                              (probe_path (s_transport_type server))) w)
                [EvHttpGet (mkUrl (s_host server) (s_port server))
                   (probe_path (s_transport_type server))] eq_refl)
      as (w' & Hrun & Hout & Hp & Hh & Ha).
    exists w'. rewrite Hrun. split; [reflexivity |]. split; [exact Hout |].
    split; [exact Hp |]. split; [exact Hh | exact Ha].
  - destruct (start_http_refused E server w
                (EvHttpGet (mkUrl (s_host server) (s_port server))
                   (probe_path (s_transport_type server))))
      as (w' & Hrun & Hout & Hp & Hh & Htr).
    exists w'. split; [exact Hrun |]. split; [exact Hout |].
    split; [exact Hp |]. split; [exact Hh |].
    destruct Hout as (_ & _ & _ & _ & _ & Ha & Hd). repeat split; assumption.
Qed.

Lemma start_http_cases (E : Env) (server : MCPServer) (w : World) :
  exists w' b, _start_http_server E server w = (w', Return b) /\ start_outcome server w w' b.
Proof.
  pose proof (start_http_run E server w) as Hrun. cbv zeta in Hrun.
  destruct (client_built E server).
  - destruct Hrun as (w' & Hrun & Hout & _). do 2 eexists. split; [exact Hrun | exact Hout].
  - exists w, false. split; [exact Hrun | apply start_outcome_nothing].
Qed.

Lemma start_server_cases (E : Env) (server : MCPServer) (w : World) :
  exists w' b, start_server E server w = (w', Return b) /\ start_outcome server w w' b.
Proof.
  unfold start_server.
  destruct (s_transport_type server) eqn:Ht.
  - destruct (start_stdio_cases E server w) as (w' & b & Hrun & Hout).
    exists w', b. cbn [try_except]. rewrite Hrun. split; [reflexivity | exact Hout].
  - destruct (start_http_cases E server w) as (w' & b & Hrun & Hout).
    exists w', b. cbn [try_except]. rewrite Hrun. split; [reflexivity | exact Hout].
  - destruct (start_http_cases E server w) as (w' & b & Hrun & Hout).
    exists w', b. cbn [try_except]. rewrite Hrun. split; [reflexivity | exact Hout].
  - destruct (start_http_cases E server w) as (w' & b & Hrun & Hout).
    exists w', b. cbn [try_except]. rewrite Hrun. split; [reflexivity | exact Hout].
  - exists w, false. split; [reflexivity | apply start_outcome_nothing].
Qed.

Ltac world_fields :=
  unfold spawned, log_event, extend, set_active_servers, set_server_processes,
    set_http_clients, set_db_servers; simpl.

(** C5, as the code has it: [start_server] on a provider that already has
    a registered transport does not look at the registry; it starts the
    provider once more.  For a stdio provider it spawns one further
    subprocess and repeats the handshake: the new subprocess replaces the old
    one in [server_processes], and when the handshake succeeds it replaces
    the old entry of [active_servers] as well and [start_server] returns
    [True]; when it fails the new subprocess is killed.  No subprocess but
    the new one is ever terminated or killed, and on success none at all, so
    the old subprocess is left running.  For a
    provider of the HTTP family a new client is built and the address probed:
    on success the new client replaces the old one in both registries
    without the old one being closed; when the probe fails the registries
    keep the old entries and the new client is closed; when the client
    cannot be built nothing happens.  Every other transport type returns
    [False] at once.  Each registry is a map keyed by provider identifier,
    so it holds one entry for the provider before and after. *)
Theorem start_server_already_active (E : Env) (server : MCPServer) (w : World)
    (old : server_info) :
  active_servers w !! s_id server = Some old ->
  match s_transport_type server with
  | STDIO =>
      let ev := EvSpawn (s_command server :: s_args server) (s_env server) in
      match io_spawn E (trace w) (s_command server :: s_args server) (s_env server) with
      | Raise _ => start_server E server w = (log_event ev w, Return false)
      | Return p =>
          exists evs ok w',
            _test_stdio_connection E p (spawned server p w)
            = (extend (spawned server p w) evs, Return ok) /\
            start_server E server w = (w', Return ok) /\
            (exists evs',
               trace w' = trace w ++ ev :: evs' /\
               no_spawn evs' /\
               (forall q, q <> p -> existsb (ends_process q) evs' = false) /\
               (ok = true -> forall q, existsb (ends_process q) evs' = false) /\
               (ok = false -> existsb (ends_process p) evs' = true)) /\
            server_processes w' = <[s_id server := p]> (server_processes w) /\
            active_servers w'
            = if ok then
                <[s_id server := StdioInfo server p (io_utcnow E (trace w ++ ev :: evs))]>
                  (active_servers w)
              else active_servers w
      end
  | HTTP | SSE | STREAMABLE_HTTP =>
      let client := mkUrl (s_host server) (s_port server) in
      let path := probe_path (s_transport_type server) in
      if client_built E server then
        let accepted :=
          match io_http_get E (trace w) client path with
          | Return code => existsb (Z.eqb code) [200; 201; 202]
          | Raise _ => false
          end in
        exists w',
          start_server E server w = (w', Return accepted) /\
          server_processes w' = server_processes w /\
          if accepted then
            http_clients w' = <[s_id server := client]> (http_clients w) /\
            active_servers w'
            = <[s_id server := HttpInfo server client
                                 (io_utcnow E (trace w ++ [EvHttpGet client path]))]>
                (active_servers w) /\
            exists evs',
              trace w' = trace w ++ EvHttpGet client path :: evs' /\
              Forall (fun ev => ev = EvUtcnow) evs'
          else
            http_clients w' = http_clients w /\
            active_servers w' = active_servers w /\
            db_servers w' = db_servers w /\
            trace w' = trace w ++ [EvHttpGet client path; EvAclose client]
      else start_server E server w = (w, Return false)
  | OTHER => start_server E server w = (w, Return false)
  end.
Proof.
  intros _.
  assert (Hhttp : http_family (s_transport_type server) = true ->
            start_server E server w = _start_http_server E server w).
  { intros Hfam.
    destruct (start_http_cases E server w) as (w' & b & Hrun & _).
    unfold start_server.
    destruct (s_transport_type server); try discriminate Hfam;
      cbn [try_except]; rewrite Hrun; reflexivity. }
  pose proof (start_http_run E server w) as Hrun. cbv zeta in Hrun.
  destruct (s_transport_type server) eqn:Ht.
  - clear Hhttp Hrun. cbv zeta.
    unfold start_server. rewrite Ht. unfold _start_stdio_server, kill, wait, utcnow. simpl.
    destruct (io_spawn E (trace w) _ _) as [p | e]; simpl; [| reflexivity].
    fold (spawned server p w).
    destruct (test_stdio_connection_quiet E p (spawned server p w))
      as (evs & ok & Htest & Hns & Hquiet).
    exists evs, ok. rewrite Htest. simpl.
    destruct ok; simpl.
    + destruct (db_servers w !! s_id server) as [row |] eqn:Hrow.
      * erewrite update_server_status_row by (world_fields; exact Hrow). simpl.
        eexists. split; [reflexivity |]. split; [reflexivity |].
        world_fields. rewrite <- !app_assoc. simpl. split; [| split; reflexivity].
        exists (evs ++ [EvUtcnow; EvUtcnow]). split; [reflexivity |].
        split; [apply no_spawn_app; [exact Hns | reflexivity] |].
        split; [intros q _ | split; [intros _ q | discriminate]];
          rewrite existsb_app, Hquiet; reflexivity.
      * rewrite update_server_status_no_row by (world_fields; exact Hrow). simpl.
        eexists. split; [reflexivity |]. split; [reflexivity |].
        world_fields. rewrite <- !app_assoc. simpl. split; [| split; reflexivity].
        exists (evs ++ [EvUtcnow]). split; [reflexivity |].
        split; [apply no_spawn_app; [exact Hns | reflexivity] |].
        split; [intros q _ | split; [intros _ q | discriminate]];
          rewrite existsb_app, Hquiet; reflexivity.
    + assert (Hother : forall q tail, q <> p ->
                existsb (ends_process q) (evs ++ EvKill p :: tail)
                = existsb (ends_process q) tail).
      { intros q tail Hq. rewrite existsb_app, Hquiet. cbn [existsb ends_process orb].
        destruct (Z.eqb_spec p q) as [Heq |]; [congruence | reflexivity]. }
      assert (Hkilled : forall tail,
                existsb (ends_process p) (evs ++ EvKill p :: tail) = true).
      { intros tail. rewrite existsb_app. cbn [existsb ends_process].
        rewrite Z.eqb_refl. apply orb_true_r. }
      destruct (io_kill E _ p); simpl; [destruct (io_wait E _ p None); simpl |];
        (eexists; split; [reflexivity |]; split; [reflexivity |];
         world_fields; rewrite <- !app_assoc; simpl; split; [| split; reflexivity]).
      * exists (evs ++ [EvKill p; EvWait p None]). split; [reflexivity |].
        split; [apply no_spawn_app; [exact Hns | reflexivity] |].
        split; [intros q Hq; rewrite (Hother q _ Hq); reflexivity |].
        split; [discriminate | intros _; apply Hkilled].
      * exists (evs ++ [EvKill p; EvWait p None]). split; [reflexivity |].
        split; [apply no_spawn_app; [exact Hns | reflexivity] |].
        split; [intros q Hq; rewrite (Hother q _ Hq); reflexivity |].
        split; [discriminate | intros _; apply Hkilled].
      * exists (evs ++ [EvKill p]). split; [reflexivity |].
        split; [apply no_spawn_app; [exact Hns | reflexivity] |].
        split; [intros q Hq; rewrite (Hother q _ Hq); reflexivity |].
        split; [discriminate | intros _; apply Hkilled].
  - rewrite (Hhttp eq_refl). cbv zeta.
    destruct (client_built E server); [| exact Hrun].
    destruct Hrun as (w' & Hrun & _ & Hrest). exists w'. split; [exact Hrun | exact Hrest].
  - rewrite (Hhttp eq_refl). cbv zeta.
    destruct (client_built E server); [| exact Hrun].
    destruct Hrun as (w' & Hrun & _ & Hrest). exists w'. split; [exact Hrun | exact Hrest].
  - rewrite (Hhttp eq_refl). cbv zeta.
    destruct (client_built E server); [| exact Hrun].
    destruct Hrun as (w' & Hrun & _ & Hrest). exists w'. split; [exact Hrun | exact Hrest].
  - unfold start_server. rewrite Ht. reflexivity.
Qed.

Lemma start_server_already_active_witness :
  exists evs ok w',
    _test_stdio_connection env_polite 102 (spawned (sample_server 1) 102 running_world)
    = (extend (spawned (sample_server 1) 102 running_world) evs, Return ok) /\
    start_server env_polite (sample_server 1) running_world = (w', Return ok) /\
    (exists evs',
       trace w' = trace running_world ++ EvSpawn ["npx"; "server"] [] :: evs' /\
       no_spawn evs' /\
       (forall q, q <> 102 -> existsb (ends_process q) evs' = false) /\
       (ok = true -> forall q, existsb (ends_process q) evs' = false) /\
       (ok = false -> existsb (ends_process 102) evs' = true)) /\
    server_processes w' = <[1 := 102]> (server_processes running_world) /\
    active_servers w'
    = if ok then
        <[1 := StdioInfo (sample_server 1) 102
                 (io_utcnow env_polite
                    (trace running_world ++ EvSpawn ["npx"; "server"] [] :: evs))]>
          (active_servers running_world)
      else active_servers running_world.
Proof.
  apply (start_server_already_active env_polite (sample_server 1) running_world
           (StdioInfo (sample_server 1) 100 3)); vm_compute; reflexivity.
Defined.

(** C5 fails as stated: provider 1 is active on subprocess 100; starting it
    again succeeds but is no no-op: a third subprocess is spawned and takes
    the place of subprocess 100, which is never terminated or killed. *)
Lemma start_active_not_noop_counterexample :
  let w' := fst (start_server env_polite (sample_server 1) running_world) in
  active_servers running_world !! 1 = Some (StdioInfo (sample_server 1) 100 3) /\
  snd (start_server env_polite (sample_server 1) running_world) = Return true /\
  count_spawns (trace running_world) = 2%nat /\
  count_spawns (trace w') = 3%nat /\
  server_processes w' !! 1 = Some 102 /\
  existsb (fun ev => match ev with
                     | EvTerminate p | EvKill p => Z.eqb p 100
                     | _ => false
                     end) (trace w') = false.
Proof. vm_compute. repeat split. Qed.

(** The same for a provider reached over HTTP: provider 5 is active in
    [http_world]; starting it again probes the address once more and
    succeeds, and the client registered before is not closed. *)
Example start_active_http_again :
  let w' := fst (start_server env_polite (sample_http_server 5 SSE) http_world) in
  is_Some (active_servers http_world !! 5) /\
  snd (start_server env_polite (sample_http_server 5 SSE) http_world) = Return true /\
  existsb (fun ev => match ev with EvAclose _ => true | _ => false end) (trace w') = false.
Proof. vm_compute. split; [eexists; reflexivity | split; reflexivity]. Qed.

(** ** Stopping a provider *)

Lemma close_transport_shape (E : Env) (info : server_info) (w : World) :
  exists evs r, close_transport E info w = (extend w evs, r) /\ no_spawn evs.
Proof.
  unfold close_transport, terminate, wait, kill, aclose.
  destruct info as [srv p t | srv c t]; simpl.
  - destruct (io_terminate E _ p); simpl; [| close_shape].
    destruct (io_wait E _ p (Some 5)) as [u | e]; simpl; [close_shape |].
    destruct (is_timeout e); simpl; [| close_shape].
    destruct (io_kill E _ p); simpl; [| close_shape].
    destruct (io_wait E _ p None); simpl; close_shape.
  - destruct (io_aclose E _ c); simpl; close_shape.
Qed.

(** A graceful close: [terminate] returns and the subprocess exits within
    the five seconds. *)
Lemma close_stdio_graceful (E : Env) (srv : MCPServer) (p : proc) (t : Z) (w : World) :
  io_terminate E (trace w) p = Return tt ->
  io_wait E (trace w ++ [EvTerminate p]) p (Some 5) = Return tt ->
  close_transport E (StdioInfo srv p t) w
  = (extend w [EvTerminate p; EvWait p (Some 5)], Return tt).
Proof.
  intros Hterm Hwait. unfold close_transport, terminate, wait. simpl.
  rewrite Hterm. simpl. rewrite Hwait. simpl.
  rewrite !log_event_extend, extend_extend. reflexivity.
Qed.

(** A forced close: the grace period runs out, the subprocess is killed. *)
Lemma close_stdio_forced (E : Env) (srv : MCPServer) (p : proc) (t : Z) (w : World) :
  io_terminate E (trace w) p = Return tt ->
  io_wait E (trace w ++ [EvTerminate p]) p (Some 5) = Raise TimeoutError ->
  io_kill E (trace w ++ [EvTerminate p; EvWait p (Some 5)]) p = Return tt ->
  io_wait E (trace w ++ [EvTerminate p; EvWait p (Some 5); EvKill p]) p None = Return tt ->
  close_transport E (StdioInfo srv p t) w
  = (extend w [EvTerminate p; EvWait p (Some 5); EvKill p; EvWait p None], Return tt).
Proof.
  intros Hterm Hwait Hkill Hwait'. unfold close_transport, terminate, wait, kill. simpl.
  rewrite Hterm. simpl. rewrite Hwait. simpl.
  repeat rewrite <- app_assoc. simpl. rewrite Hkill, Hwait'.
  rewrite !log_event_extend, !extend_extend. reflexivity.
Qed.

(** A close that fails at once: [terminate] raises, as it does on a
    subprocess that has already exited. *)
Lemma close_stdio_terminate_raises (E : Env) (srv : MCPServer) (p : proc) (t : Z)
    (w : World) (e : exn) :
  io_terminate E (trace w) p = Raise e ->
  close_transport E (StdioInfo srv p t) w = (extend w [EvTerminate p], Raise e).
Proof.
  intros Hterm. unfold close_transport, terminate. simpl. rewrite Hterm. reflexivity.
Qed.

(** C6, as the code has it: [stop_server] never raises.  On a provider with
    no entry in [active_servers] it returns [True] and changes nothing.  On
    a registered provider it closes the transport first: when the close
    returns (a kill after the grace period included) the three registry
    entries are removed, the row goes to [INACTIVE] and the call returns
    [True], after which a second [stop_server] is a no-op returning [True];
    when the close raises, the call returns [False] and registries and rows
    are as before. *)
Theorem stop_server_spec (E : Env) (server_id : Z) (w : World) :
  match active_servers w !! server_id with
  | None => stop_server E server_id w = (w, Return true)
  | Some info =>
      exists evs closed,
        close_transport E info w = (extend w evs, closed) /\
        match closed with
        | Raise _ => stop_server E server_id w = (extend w evs, Return false)
        | Return _ =>
            exists w',
              stop_server E server_id w = (w', Return true) /\
              active_servers w' = delete server_id (active_servers w) /\
              server_processes w' = delete server_id (server_processes w) /\
              http_clients w' = delete server_id (http_clients w) /\
              db_servers w'
              = match db_servers w !! server_id with
                | Some row =>
                    <[server_id := with_status row INACTIVE (io_utcnow E (trace w ++ evs))]>
                      (db_servers w)
                | None => db_servers w
                end /\
              stop_server E server_id w' = (w', Return true)
        end
  end.
Proof.
  destruct (active_servers w !! server_id) as [info |] eqn:Hinfo.
  - destruct (close_transport_shape E info w) as (evs & closed & Hclose & _).
    exists evs, closed. split; [exact Hclose |].
    assert (Hstop : forall w', active_servers w' !! server_id = None ->
                               stop_server E server_id w' = (w', Return true)).
    { intros w' Hnone. unfold stop_server. simpl. rewrite Hnone. reflexivity. }
    unfold stop_server. simpl. rewrite Hinfo. simpl. rewrite Hclose.
    destruct closed as [u | e]; simpl; [| reflexivity].
    destruct (db_servers w !! server_id) as [row |] eqn:Hrow.
    + erewrite update_server_status_row by (world_fields; exact Hrow). simpl.
      eexists. split; [reflexivity |].
      repeat (split; [world_fields; reflexivity |]).
      apply Hstop. world_fields. apply lookup_delete_eq.
    + rewrite update_server_status_no_row by (world_fields; exact Hrow). simpl.
      eexists. split; [reflexivity |].
      repeat (split; [world_fields; reflexivity |]).
      apply Hstop. world_fields. apply lookup_delete_eq.
  - unfold stop_server. simpl. rewrite Hinfo. reflexivity.
Qed.

(** C6 fails as stated: the subprocess of provider 1 has exited, so
    [terminate] raises; [stop_server] returns [False], the registry entries
    stay and the row stays [ACTIVE]. *)
Lemma stop_close_failure_counterexample :
  let w' := fst (stop_server env_exited 1 running_world) in
  snd (stop_server env_exited 1 running_world) = Return false /\
  active_servers w' !! 1 = Some (StdioInfo (sample_server 1) 100 3) /\
  server_processes w' !! 1 = Some 100 /\
  (s_status <$> db_servers w' !! 1) = Some ACTIVE.
Proof. vm_compute. repeat split. Qed.

(** Stopping twice in a row where the close works: both calls return
    [True] and the second changes nothing. *)
Example stop_twice :
  let w1 := fst (stop_server env_polite 1 running_world) in
  snd (stop_server env_polite 1 running_world) = Return true /\
  active_servers w1 !! 1 = None /\
  (s_status <$> db_servers w1 !! 1) = Some INACTIVE /\
  stop_server env_polite 1 w1 = (w1, Return true).
Proof. vm_compute. repeat split. Qed.

(** ** The identifier of the response *)

(** C7, evaluated on the code: a client without a session sends
    [{"jsonrpc": "2.0", "id": id, "method": "tools/list"}]; whatever [id]
    is, the envelope sent back carries the identifier [None], because
    [_aggregate_from_servers] takes the identifier from [params] and
    [route_request] is never given the identifier of the request. *)
Theorem aggregate_response_loses_request_id (E : Env) (w : World) (id : json) :
  exists w',
    handle_mcp_request E
      (Json (JDict [("jsonrpc", JStr "2.0"); ("id", id); ("method", JStr "tools/list")]))
      (JDict [("type", JStr "api_key")]) w
    = (w', Return (200, Content (JDict [("jsonrpc", JStr "2.0"); ("id", JNull);
                                        ("result", JList [])]))).
Proof.
  unfold handle_mcp_request, create_session, uuid4, utcnow, route_decoded, route_request.
  simpl. unfold set_sessions at 1. simpl. rewrite lookup_insert_eq. simpl.
  eexists. reflexivity.
Qed.

(** The same for a forwarded call: the client asks with identifier 7, and
    the answer of the provider comes back untouched, carrying the identifier
    that [proxy_request] generated. *)
Example forwarded_response_id :
  snd (handle_mcp_request env_polite
         (Json (JDict [("jsonrpc", JStr "2.0"); ("id", JNum 7); ("method", JStr "ping")]))
         (JDict [("type", JStr "oauth"); ("session_id", JStr "s")])
         (attach_session "s" [1] running_world))
  = Return (200, Content (JDict [("jsonrpc", JStr "2.0"); ("id", JStr "req");
                                 ("result", JDict [])])).
Proof. vm_compute. reflexivity. Qed.

(** One line is read per request and returned as it is: after a request
    that timed out, the next request is handed the late answer to the first,
    identifier included. *)
Example stale_response_returned :
  let w1 := fst (proxy_request env_slow 1 "tools/list" JNull fresh_world) in
  snd (proxy_request env_slow 1 "tools/list" JNull fresh_world)
  = Raise (HTTPException 500 (RequestFailed TimeoutError)) /\
  last_write 100 (trace (fst (proxy_request env_slow 1 "ping" JNull w1)))
  = Some (JDict [("jsonrpc", JStr "2.0"); ("id", JStr "second");
                 ("method", JStr "ping"); ("params", JNull)]) /\
  snd (proxy_request env_slow 1 "ping" JNull w1)
  = Return (JDict [("jsonrpc", JStr "2.0"); ("id", JStr "first");
                   ("result", JList [JDict [("name", JStr "echo")];
                                     JDict [("name", JStr "even")]])]).
Proof. vm_compute. repeat split. Qed.

(** On the error path the identifier of the request is kept. *)
Example error_response_id :
  snd (handle_mcp_request env_polite
         (Json (JDict [("jsonrpc", JStr "2.0"); ("id", JNum 7); ("method", JStr "ping")]))
         (JDict [("type", JStr "oauth"); ("session_id", JStr "s")])
         (attach_session "s" [] running_world))
  = Return (500, ErrorContent (JNum 7) (-32000)
                   (HTTPException 400 (Msg "No servers connected to session"))).
Proof. vm_compute. reflexivity. Qed.

(** ** The aggregate strategy *)

Lemma dict_get_set_eq (k : string) (v : json) (d : dict) :
  dict_get k (dict_set k v d) = Some v.
Proof.
  induction d as [| [k' v'] d IH]; simpl.
  - rewrite String.eqb_refl. reflexivity.
  - destruct (String.eqb k k') eqn:Hk; simpl; rewrite Hk; [reflexivity | exact IH].
Qed.

(** The loop that tags the items of one provider agrees with tagging each
    item, failing as soon as one of them is no object. *)
Lemma tag_items_mapM (server_id : Z) (items : list json) :
  tag_items server_id items
  = match mapM (tag server_id) items with
    | Some tagged => Return tagged
    | None => Raise TypeError
    end.
Proof.
  induction items as [| item rest IH]; [reflexivity |].
  cbn [tag_items mapM]. rewrite IH.
  destruct item; try reflexivity.
  cbn. destruct (mapM (tag server_id) rest); reflexivity.
Qed.

Lemma mapM_tag_tagged (server_id : Z) (items tagged : list json) :
  mapM (tag server_id) items = Some tagged -> Forall (tagged_with server_id) tagged.
Proof.
  intros H. apply mapM_Some in H.
  induction H as [| item item' items tagged Htag _ IH]; constructor; [| exact IH].
  destruct item; try discriminate. injection Htag as <-.
  eexists. split; [reflexivity | apply dict_get_set_eq].
Qed.

Lemma contribution_tagged (server_id : Z) (r : result json) :
  Forall (tagged_with server_id) (contribution server_id r).
Proof.
  destruct r as [response | e]; [| constructor]. unfold contribution.
  destruct (mapM (tag server_id) (items_of response)) as [tagged |] eqn:H; simpl.
  - exact (mapM_tag_tagged _ _ _ H).
  - constructor.
Qed.

Lemma mapM_tag_objects (server_id : Z) (objects : list dict) :
  mapM (tag server_id) (map JDict objects)
  = Some (map (fun o => JDict (dict_set "_server_id" (JNum server_id) o)) objects).
Proof.
  induction objects as [| o objects IH]; [reflexivity |].
  cbn [map mapM]. rewrite IH. reflexivity.
Qed.

(** One entry that is no object and nothing of the list is tagged. *)
Lemma mapM_tag_non_object (server_id : Z) (items : list json) :
  existsb (fun item => negb (is_dict item)) items = true ->
  mapM (tag server_id) items = None.
Proof.
  induction items as [| item rest IH]; [discriminate |].
  cbn [existsb mapM]. intros H. apply orb_true_iff in H as [Hitem | Hrest].
  - destruct item; try discriminate; reflexivity.
  - rewrite (IH Hrest). destruct (tag server_id item); reflexivity.
Qed.

(** A response whose result is a list of objects contributes each object,
    tagged, in the order of the list. *)
Lemma contribution_list (server_id : Z) (d : dict) (objects : list dict) :
  dict_get "result" d = Some (JList (map JDict objects)) ->
  contribution server_id (Return (JDict d))
  = map (fun o => JDict (dict_set "_server_id" (JNum server_id) o)) objects.
Proof.
  intros Hres. unfold contribution, items_of. rewrite Hres, mapM_tag_objects. reflexivity.
Qed.

(** One turn of the loop adds the contribution of its provider. *)
Lemma aggregate_step_spec (E : Env) (method : string) (params : json)
    (results : list json) (server_id : Z) (w : World) :
  aggregate_step E method params results server_id w
  = (fst (proxy_request E server_id method params w),
     Return (results ++ contribution server_id (snd (proxy_request E server_id method params w)))).
Proof.
  unfold aggregate_step. simpl.
  destruct (proxy_request E server_id method params w) as [w1 [response | e]]; simpl;
    [| rewrite app_nil_r; reflexivity].
  unfold contribution, items_of.
  destruct response as [| b | n | str | l | d]; simpl;
    try (rewrite app_nil_r; reflexivity).
  - destruct (str_contains "result" str); simpl; rewrite app_nil_r; reflexivity.
  - destruct (existsb _ l); simpl; rewrite app_nil_r; reflexivity.
  - unfold dict_has. destruct (dict_get "result" d) as [v |]; simpl;
      [| rewrite app_nil_r; reflexivity].
    destruct v as [| b | n | str | items | r]; simpl;
      try (rewrite app_nil_r; reflexivity).
    + rewrite tag_items_mapM.
      destruct (mapM (tag server_id) items); simpl; [| rewrite app_nil_r]; reflexivity.
    + reflexivity.
Qed.

Lemma aggregate_loop_spec (E : Env) (method : string) (params : json) (servers : list Z) :
  forall (results : list json) (w : World),
    aggregate_loop E method params results servers w
    = (fst (call_each E method params servers w),
       Return (results ++ merged (snd (call_each E method params servers w)))).
Proof.
  induction servers as [| server_id rest IH]; intros results w.
  - simpl. rewrite app_nil_r. reflexivity.
  - cbn [aggregate_loop call_each]. unfold bind at 1.
    rewrite aggregate_step_spec.
    destruct (proxy_request E server_id method params w) as [w1 r]. cbn [fst snd].
    rewrite IH.
    destruct (call_each E method params rest w1) as [w2 rs]. cbn [fst snd].
    unfold merged. cbn [flat_map fst snd]. rewrite app_assoc. reflexivity.
Qed.

Lemma get_if_truthy_ok (params : json) (k : string) :
  params_ok params -> exists v, get_if_truthy params k = Return v.
Proof.
  unfold params_ok, get_if_truthy. intros [Hfalse | Hdict].
  - rewrite Hfalse. eexists. reflexivity.
  - destruct params; try discriminate. destruct (truthy _); eexists; reflexivity.
Qed.

Lemma get_if_truthy_not_ok (params : json) (k : string) :
  ~ params_ok params -> get_if_truthy params k = Raise AttributeError.
Proof.
  unfold params_ok, get_if_truthy. intros Hnot.
  destruct (truthy params) eqn:Htruthy; [| exfalso; apply Hnot; left; reflexivity].
  destruct params; try reflexivity. exfalso. apply Hnot. right. reflexivity.
Qed.

(** What a provider that answered contributes: every item tagged when all of
    them are objects, nothing as soon as one of them is not. *)
Lemma contribution_all_or_nothing (server_id : Z) (response : json) :
  (forall objects,
     items_of response = map JDict objects ->
     contribution server_id (Return response)
     = map (fun o => JDict (dict_set "_server_id" (JNum server_id) o)) objects) /\
  (existsb (fun item => negb (is_dict item)) (items_of response) = true ->
   contribution server_id (Return response) = []).
Proof.
  unfold contribution. split.
  - intros objects ->. rewrite mapM_tag_objects. reflexivity.
  - intros Hbad. rewrite (mapM_tag_non_object _ _ Hbad). reflexivity.
Qed.

(** C1, as the code has it: routing a list-style method in a session calls
    every attached provider in attachment order, whatever the request
    parameters.  When the parameters are absent (or otherwise false) or an
    object, the call returns one envelope whose result is the concatenation,
    in that order, of what each provider contributes: nothing when its call
    raised; the items of its result, each tagged with the provider's
    identifier, when the call returned and every item is an object; and
    nothing again when the call returned but one of its items is no object.
    When the parameters are anything else (a non-empty array, say), the call
    raises [AttributeError] once the providers have been called. *)
Theorem aggregate_concatenates_tagged (E : Env) (session_id method : string)
    (params : json) (s : session) (w : World) :
  sessions w !! session_id = Some s ->
  existsb (String.eqb method) list_methods = true ->
  let w' := fst (call_each E method params (connected_servers s) w) in
  let outcomes := snd (call_each E method params (connected_servers s) w) in
  map fst outcomes = connected_servers s /\
  Forall (fun o => Forall (tagged_with (fst o)) (contribution (fst o) (snd o))) outcomes /\
  Forall (fun o => forall e, snd o = Raise e -> contribution (fst o) (snd o) = []) outcomes /\
  Forall (fun o => forall response,
            snd o = Return response ->
            (forall objects,
               items_of response = map JDict objects ->
               contribution (fst o) (snd o)
               = map (fun d => JDict (dict_set "_server_id" (JNum (fst o)) d)) objects) /\
            (existsb (fun item => negb (is_dict item)) (items_of response) = true ->
             contribution (fst o) (snd o) = [])) outcomes /\
  (params_ok params ->
   exists id,
     get_if_truthy params "id" = Return id /\
     route_request E session_id method params w
     = (w', Return (JDict [("jsonrpc", JStr "2.0"); ("id", id);
                           ("result", JList (merged outcomes))]))) /\
  (~ params_ok params ->
   route_request E session_id method params w = (w', Raise AttributeError)).
Proof.
  intros Hs Hm. cbv zeta.
  assert (Hroute : route_request E session_id method params w
                   = (fst (call_each E method params (connected_servers s) w),
                      match get_if_truthy params "id" with
                      | Return id =>
                          Return (JDict [("jsonrpc", JStr "2.0"); ("id", id);
                                         ("result",
                                          JList (merged (snd (call_each E method params
                                                                (connected_servers s) w))))])
                      | Raise e => Raise e
                      end)).
  { unfold route_request. cbn [bind get]. rewrite Hs, Hm.
    unfold _aggregate_from_servers. unfold bind at 1.
    rewrite aggregate_loop_spec. simpl.
    destruct (get_if_truthy params "id"); reflexivity. }
  split; [| split; [| split; [| split; [| split]]]].
  - clear Hroute. generalize w. induction (connected_servers s) as [| server_id rest IH]; intros w0.
    + reflexivity.
    + cbn [call_each].
      destruct (proxy_request E server_id method params w0) as [w1 r].
      specialize (IH w1). destruct (call_each E method params rest w1) as [w2 rs].
      simpl in *. rewrite IH. reflexivity.
  - apply Forall_forall. intros o _. apply contribution_tagged.
  - apply Forall_forall. intros o _ e He. rewrite He. reflexivity.
  - apply Forall_forall. intros o _ response Hr. rewrite Hr.
    apply contribution_all_or_nothing.
  - intros Hp. destruct (get_if_truthy_ok params "id" Hp) as [id Hid].
    exists id. split; [exact Hid |]. rewrite Hroute, Hid. reflexivity.
  - intros Hp. rewrite Hroute, (get_if_truthy_not_ok params "id" Hp). reflexivity.
Qed.

Lemma aggregate_concatenates_tagged_witness :
  let w' := fst (call_each env_polite "tools/list" JNull [1; 3; 2] mixed_world) in
  let outcomes := snd (call_each env_polite "tools/list" JNull [1; 3; 2] mixed_world) in
  exists id,
    get_if_truthy JNull "id" = Return id /\
    route_request env_polite "s" "tools/list" JNull mixed_world
    = (w', Return (JDict [("jsonrpc", JStr "2.0"); ("id", id);
                          ("result", JList (merged outcomes))])) /\
    map fst outcomes = [1; 3; 2] /\
    Forall (fun o => Forall (tagged_with (fst o)) (contribution (fst o) (snd o))) outcomes /\
    Forall (fun o => forall e, snd o = Raise e -> contribution (fst o) (snd o) = []) outcomes.
Proof.
  cbv zeta.
  destruct (aggregate_concatenates_tagged env_polite "s" "tools/list" JNull
              (mkSession "api" (JDict []) [1; 3; 2] 0) mixed_world)
    as (Hmap & Htagged & Hraised & _ & Hok & _).
  - vm_compute. reflexivity.
  - reflexivity.
  - destruct (Hok (or_introl eq_refl)) as (id & Hid & Hroute).
    exists id. split; [exact Hid |]. split; [exact Hroute |].
    split; [exact Hmap |]. split; [exact Htagged | exact Hraised].
Defined.

(** C1 fails as stated.  With a non-empty array as parameters, providers 1
    and 2 are called and answer, yet the call as a whole raises.  And a
    provider whose call returned contributes nothing when one of the items
    it returned is no object: provider 1 answers with an object and a bare
    string, and the merged result is empty. *)
Lemma aggregate_not_total_counterexample :
  snd (route_request env_polite "s" "tools/list" (JList [JNum 1]) mixed_world)
  = Raise AttributeError /\
  snd (proxy_request env_mixed_items 1 "tools/list" JNull flaky_world)
  = Return (JDict [("jsonrpc", JStr "2.0");
                   ("result", JList [JDict [("name", JStr "echo")]; JStr "odd"])]) /\
  snd (route_request env_mixed_items "s" "tools/list" JNull flaky_world)
  = Return (JDict [("jsonrpc", JStr "2.0"); ("id", JNull); ("result", JList [])]).
Proof. vm_compute. repeat split. Qed.

(** The run of the witness: provider 3 raises (it has no transport), the
    items of 1 and 2 are merged in attachment order, each with its tag. *)
Example aggregate_with_failing_provider :
  snd (call_each env_polite "tools/list" JNull [3] mixed_world)
  = [(3, Raise (HTTPException 404 (Msg "Server not found or inactive")))] /\
  snd (route_request env_polite "s" "tools/list" JNull mixed_world)
  = Return (JDict [("jsonrpc", JStr "2.0"); ("id", JNull);
      ("result", JList [
         JDict [("name", JStr "echo"); ("_server_id", JNum 1)];
         JDict [("name", JStr "even"); ("_server_id", JNum 1)];
         JDict [("name", JStr "echo"); ("_server_id", JNum 2)];
         JDict [("name", JStr "odd"); ("_server_id", JNum 2)]])]).
Proof. vm_compute. split; reflexivity. Qed.

(** Outside the stated parameters: a non-empty array as [params] makes
    [params.get("id")] raise once the providers have been called. *)
Example aggregate_array_params :
  snd (route_request env_polite "s" "tools/list" (JList [JNum 1]) mixed_world)
  = Raise AttributeError.
Proof. vm_compute. reflexivity. Qed.

(** ** The capability-lookup strategy *)

Lemma tools_call_not_list (method : string) :
  String.prefix "tools/call" method = true ->
  existsb (String.eqb method) list_methods = false.
Proof.
  intros Hprefix.
  destruct (existsb (String.eqb method) list_methods) eqn:Hex; [| reflexivity].
  apply existsb_exists in Hex as (m & Hin & Heq).
  apply String.eqb_eq in Heq. subst m.
  simpl in Hin. destruct Hin as [<- | [<- | [<- | []]]]; discriminate Hprefix.
Qed.

Lemma scan_tools_leading (tool_name : json) (items : list json) :
  match scan_tools items tool_name with
  | Return found => found
  | Raise _ => false
  end = existsb (named tool_name) (leading_objects items).
Proof.
  induction items as [| item rest IH]; [reflexivity |].
  destruct item as [| b | n | str | l | d]; try reflexivity.
  cbn [scan_tools py_get leading_objects existsb]. unfold named at 1.
  change (match dict_get "name" d with Some v => v | None => JNull end)
    with (default JNull (dict_get "name" d)).
  destruct (py_eq (default JNull (dict_get "name" d)) tool_name); [reflexivity | exact IH].
Qed.

(** A scan that starts on an entry that is no object finds nothing. *)
Lemma scan_tools_malformed (tool_name : json) (items : list json) :
  match items with [] => True | item :: _ => is_dict item = false end ->
  match scan_tools items tool_name with
  | Return found => found
  | Raise _ => false
  end = false.
Proof.
  destruct items as [| item rest]; [reflexivity |].
  destruct item; try discriminate; reflexivity.
Qed.

(** One turn of the loop: list the tools of the provider; if the listing
    advertises the tool, forward the call, and go on when the call raises. *)
Lemma tool_call_step_spec (E : Env) (method : string) (params tool_name : json)
    (server_id : Z) (w : World) :
  tool_call_step E method params tool_name server_id w
  = let w1 := fst (proxy_request E server_id "tools/list" JNull w) in
    if advertises tool_name (snd (proxy_request E server_id "tools/list" JNull w)) then
      (fst (proxy_request E server_id method params w1),
       Return match snd (proxy_request E server_id method params w1) with
              | Return response => Some response
              | Raise _ => None
              end)
    else (w1, Return None).
Proof.
  unfold tool_call_step, advertises. cbn [try_except bind]. cbv zeta.
  destruct (proxy_request E server_id "tools/list" JNull w) as [w1 [response | e]];
    cbn [fst snd]; [| reflexivity].
  destruct response as [| b | n | str | l | d]; try reflexivity.
  cbn [py_get lift].
  destruct (dict_get "result" d) as [tools |]; [| reflexivity].
  destruct tools as [| b | n | str | items | r]; try reflexivity; cbn [py_iter].
  - pose proof (scan_tools_malformed tool_name (str_chars str)) as Hscan.
    destruct (scan_tools (str_chars str) tool_name) as [[|] | e]; try reflexivity.
    discriminate Hscan. destruct str; [exact I | reflexivity].
  - rewrite <- scan_tools_leading.
    destruct (scan_tools items tool_name) as [[|] | e]; try reflexivity.
    cbn [bind ret].
    destruct (proxy_request E server_id method params w1) as [w2 [response | e]];
      reflexivity.
  - pose proof (scan_tools_malformed tool_name (map (fun kv => JStr (fst kv)) r)) as Hscan.
    destruct (scan_tools (map (fun kv => JStr (fst kv)) r) tool_name) as [[|] | e];
      try reflexivity.
    discriminate Hscan. destruct r; [exact I | reflexivity].
Qed.

Lemma tool_call_loop_none (E : Env) (method : string) (params tool_name : json)
    (servers : list Z) :
  forall w w1,
    first_advertiser E tool_name servers w = (w1, None) ->
    tool_call_loop E method params tool_name servers w
    = (w1, Raise (HTTPException 404 (ToolNotFound tool_name))).
Proof.
  induction servers as [| server_id rest IH]; intros w w1 Hfirst.
  - injection Hfirst as <-. reflexivity.
  - cbn [first_advertiser] in Hfirst. cbn [tool_call_loop]. unfold bind at 1.
    rewrite tool_call_step_spec. cbv zeta.
    destruct (proxy_request E server_id "tools/list" JNull w) as [w0 r]. cbn [fst snd].
    destruct (advertises tool_name r); [discriminate |].
    apply IH. exact Hfirst.
Qed.

Lemma tool_call_loop_some (E : Env) (method : string) (params tool_name : json)
    (servers : list Z) :
  forall w w1 p rest,
    first_advertiser E tool_name servers w = (w1, Some (p, rest)) ->
    tool_call_loop E method params tool_name servers w
    = match snd (proxy_request E p method params w1) with
      | Return response => (fst (proxy_request E p method params w1), Return response)
      | Raise _ =>
          tool_call_loop E method params tool_name rest
            (fst (proxy_request E p method params w1))
      end.
Proof.
  induction servers as [| server_id servers IH]; intros w w1 p rest Hfirst.
  - discriminate.
  - cbn [first_advertiser] in Hfirst. cbn [tool_call_loop]. unfold bind at 1.
    rewrite tool_call_step_spec. cbv zeta.
    destruct (proxy_request E server_id "tools/list" JNull w) as [w0 r]. cbn [fst snd].
    destruct (advertises tool_name r).
    + injection Hfirst as <- <- <-.
      destruct (proxy_request E server_id method params w0) as [w2 [response | e]];
        reflexivity.
    + apply IH. exact Hfirst.
Qed.

(** The provider found by the probe is the first, in attachment order, whose
    listing advertises the tool. *)
Lemma first_advertiser_first (E : Env) (tool_name : json) (servers : list Z) :
  forall w w1 p rest,
    first_advertiser E tool_name servers w = (w1, Some (p, rest)) ->
    exists pre w0,
      servers = pre ++ p :: rest /\
      first_advertiser E tool_name pre w = (w0, None) /\
      fst (proxy_request E p "tools/list" JNull w0) = w1 /\
      advertises tool_name (snd (proxy_request E p "tools/list" JNull w0)) = true.
Proof.
  induction servers as [| server_id servers IH]; intros w w1 p rest Hfirst.
  - discriminate.
  - cbn [first_advertiser] in Hfirst.
    destruct (proxy_request E server_id "tools/list" JNull w) as [w0 r] eqn:Hprobe.
    destruct (advertises tool_name r) eqn:Hlists.
    + injection Hfirst as <- <- <-. exists [], w.
      rewrite Hprobe. repeat split. exact Hlists.
    + destruct (IH w0 w1 p rest Hfirst) as (pre & w0' & -> & Hpre & Hw1 & Hp).
      exists (server_id :: pre), w0'. split; [reflexivity |].
      split; [| split; assumption].
      cbn [first_advertiser]. rewrite Hprobe, Hlists. exact Hpre.
Qed.

(** When no probe of [servers] advertises the tool, the search finds
    nobody. *)
Lemma first_advertiser_nobody (E : Env) (tool_name : json) (servers : list Z) :
  forall w,
    Forall (fun o => advertises tool_name (snd o) = false)
      (snd (call_each E "tools/list" JNull servers w)) ->
    first_advertiser E tool_name servers w
    = (fst (call_each E "tools/list" JNull servers w), None).
Proof.
  induction servers as [| server_id rest IH]; intros w Hnone; [reflexivity |].
  cbn [first_advertiser call_each] in *.
  destruct (proxy_request E server_id "tools/list" JNull w) as [w1 r].
  specialize (IH w1).
  destruct (call_each E "tools/list" JNull rest w1) as [w2 rs]. cbn [fst snd] in *.
  inversion Hnone as [| o os Ho Hos]; subst. cbn [snd] in Ho. rewrite Ho.
  apply IH. exact Hos.
Qed.

(** When the probes of [pre] advertise nothing and the probe of [p] does,
    the search stops at [p]. *)
Lemma first_advertiser_found (E : Env) (tool_name : json) (p : Z) (rest pre : list Z) :
  forall w,
    Forall (fun o => advertises tool_name (snd o) = false)
      (snd (call_each E "tools/list" JNull pre w)) ->
    advertises tool_name
      (snd (proxy_request E p "tools/list" JNull
              (fst (call_each E "tools/list" JNull pre w)))) = true ->
    first_advertiser E tool_name (pre ++ p :: rest) w
    = (fst (proxy_request E p "tools/list" JNull
              (fst (call_each E "tools/list" JNull pre w))),
       Some (p, rest)).
Proof.
  induction pre as [| server_id pre IH]; intros w Hnone Hfound.
  - cbn [app first_advertiser call_each fst] in *.
    destruct (proxy_request E p "tools/list" JNull w) as [w1 r]. cbn [fst snd] in *.
    rewrite Hfound. reflexivity.
  - cbn [app first_advertiser call_each] in *.
    destruct (proxy_request E server_id "tools/list" JNull w) as [w1 r].
    specialize (IH w1).
    destruct (call_each E "tools/list" JNull pre w1) as [w2 rs]. cbn [fst snd] in *.
    inversion Hnone as [| o os Ho Hos]; subst. cbn [snd] in Ho. rewrite Ho.
    apply IH; assumption.
Qed.

(** C2, as the code has it: routing an invocation method (one that starts
    with ["tools/call"]).  When the request parameters are neither absent
    nor an object (a non-empty array or string, say), the call raises
    [AttributeError] before any provider is contacted.  When they are absent
    or an object without a target name, the call raises 400 "Tool name
    required".  With a name, the attached providers are asked for their tool
    listing in attachment order.  If no listing advertises the name, the call
    raises 404 "Tool ... not found".  Otherwise the invocation is forwarded
    to the first provider whose listing advertises it, no provider after it
    having been asked; the response of that provider is returned, and when
    the forwarded call raises the search goes on with the providers after
    it. *)
Theorem tool_call_first_match (E : Env) (session_id method : string)
    (params : json) (s : session) (w : World) :
  sessions w !! session_id = Some s ->
  String.prefix "tools/call" method = true ->
  (~ params_ok params ->
   route_request E session_id method params w = (w, Raise AttributeError)) /\
  (params_ok params ->
   exists tool_name,
     get_if_truthy params "name" = Return tool_name /\
     (truthy tool_name = false ->
      route_request E session_id method params w
      = (w, Raise (HTTPException 400 (Msg "Tool name required")))) /\
     (truthy tool_name = true ->
      (Forall (fun o => advertises tool_name (snd o) = false)
         (snd (call_each E "tools/list" JNull (connected_servers s) w)) ->
       route_request E session_id method params w
       = (fst (call_each E "tools/list" JNull (connected_servers s) w),
          Raise (HTTPException 404 (ToolNotFound tool_name)))) /\
      (forall pre p rest,
         connected_servers s = pre ++ p :: rest ->
         Forall (fun o => advertises tool_name (snd o) = false)
           (snd (call_each E "tools/list" JNull pre w)) ->
         let w0 := fst (call_each E "tools/list" JNull pre w) in
         advertises tool_name (snd (proxy_request E p "tools/list" JNull w0)) = true ->
         let w1 := fst (proxy_request E p "tools/list" JNull w0) in
         (forall w2 response,
            proxy_request E p method params w1 = (w2, Return response) ->
            route_request E session_id method params w = (w2, Return response)) /\
         (forall w2 e,
            proxy_request E p method params w1 = (w2, Raise e) ->
            route_request E session_id method params w
            = tool_call_loop E method params tool_name rest w2)))).
Proof.
  intros Hs Hprefix.
  assert (Hroute : route_request E session_id method params w
                   = _route_tool_call E s method params w).
  { unfold route_request. cbn [bind get].
    rewrite Hs, (tools_call_not_list method Hprefix), Hprefix. reflexivity. }
  rewrite Hroute. unfold _route_tool_call. cbn [bind lift].
  split.
  - intros Hp. rewrite (get_if_truthy_not_ok params "name" Hp). reflexivity.
  - intros Hp. destruct (get_if_truthy_ok params "name" Hp) as [tool_name Hname].
    exists tool_name. split; [exact Hname |]. rewrite Hname. split.
    + intros Hfalse. rewrite Hfalse. reflexivity.
    + intros Htrue. rewrite Htrue. cbn [negb]. split.
      * intros Hnone. apply tool_call_loop_none, first_advertiser_nobody, Hnone.
      * intros pre p rest Hservers Hnone Hfound.
        pose proof (first_advertiser_found E tool_name p rest pre w Hnone Hfound) as Hfirst.
        rewrite <- Hservers in Hfirst.
        rewrite (tool_call_loop_some E method params tool_name _ w _ p rest Hfirst).
        split; intros w2 r Hcall; rewrite Hcall; reflexivity.
Qed.

Lemma tool_call_first_match_witness :
  exists w2,
    advertises (JStr "echo") (snd (proxy_request env_polite 2 "tools/list" JNull echo_world))
    = true /\
    route_request env_polite "s" "tools/call" echo_params echo_world
    = (w2, Return (JDict [("jsonrpc", JStr "2.0"); ("id", JStr "req");
                          ("result", JDict [("handled_by", JNum 101)])])).
Proof.
  assert (Hfound : advertises (JStr "echo")
                     (snd (proxy_request env_polite 2 "tools/list" JNull echo_world)) = true)
    by (vm_compute; reflexivity).
  exists (fst (proxy_request env_polite 2 "tools/call" echo_params
                 (fst (proxy_request env_polite 2 "tools/list" JNull echo_world)))).
  split; [exact Hfound |].
  destruct (tool_call_first_match env_polite "s" "tools/call" echo_params
              (mkSession "api" (JDict []) [2; 1] 0) echo_world)
    as (_ & Hok); [vm_compute; reflexivity | reflexivity |].
  destruct (Hok (or_intror eq_refl)) as (tool_name & Hname & _ & Hnamed).
  injection Hname as <-.
  destruct (Hnamed eq_refl) as [_ Hfirst].
  destruct (Hfirst [] 2 [1] eq_refl (List.Forall_nil _) Hfound) as [Hreturn _].
  apply Hreturn. vm_compute. reflexivity.
Defined.

(** C2 fails as stated: a request whose parameters are a non-empty array or
    a string carries no target name, yet the call does not fail with 400
    "Tool name required"; asking the parameters for the name raises
    [AttributeError]. *)
Lemma tool_call_missing_target_counterexample :
  snd (route_request env_polite "s" "tools/call" (JList [JStr "echo"]) echo_world)
  = Raise AttributeError /\
  snd (route_request env_polite "s" "tools/call" (JStr "echo") echo_world)
  = Raise AttributeError.
Proof. vm_compute. split; reflexivity. Qed.

(** Attached the other way round, the same call goes to provider 1. *)
Example tool_call_attachment_order :
  snd (route_request env_polite "s" "tools/call" echo_params
         (attach_session "s" [1; 2] running_world))
  = Return (JDict [("jsonrpc", JStr "2.0"); ("id", JStr "req");
                   ("result", JDict [("handled_by", JNum 100)])]) /\
  snd (route_request env_polite "s" "tools/call" (JDict [("name", JStr "odd")])
         (attach_session "s" [1; 2] running_world))
  = Return (JDict [("jsonrpc", JStr "2.0"); ("id", JStr "req");
                   ("result", JDict [("handled_by", JNum 101)])]) /\
  snd (route_request env_polite "s" "tools/call" (JDict [("name", JStr "missing")])
         (attach_session "s" [1; 2] running_world))
  = Raise (HTTPException 404 (ToolNotFound (JStr "missing"))) /\
  snd (route_request env_polite "s" "tools/call" JNull
         (attach_session "s" [1; 2] running_world))
  = Raise (HTTPException 400 (Msg "Tool name required")).
Proof. vm_compute. repeat split. Qed.

(** * Further properties of the gateway *)

(** ** Requests to one provider *)

Ltac close_outcome :=
  rewrite ?log_event_extend, ?extend_extend; simpl;
  do 2 eexists; split; [reflexivity | split; [reflexivity | eauto]].

(** X1: [proxy_request] fails in two ways only.  Without a registered
    transport it raises 404 "Server not found or inactive" and does nothing.
    With one it draws an identifier, talks to the provider without spawning
    anything, and whatever goes wrong on the way reaches the caller as one
    [HTTPException] 500 that wraps the cause. *)
Theorem proxy_request_outcomes (E : Env) (server_id : Z) (method : string)
    (params : json) (w : World) :
  match active_servers w !! server_id with
  | None =>
      proxy_request E server_id method params w
      = (w, Raise (HTTPException 404 (Msg "Server not found or inactive")))
  | Some _ =>
      exists evs r,
        proxy_request E server_id method params w = (extend w (EvUuid4 :: evs), r) /\
        no_spawn evs /\
        match r with
        | Return _ => True
        | Raise e => exists cause, e = HTTPException 500 (RequestFailed cause)
        end
  end.
Proof.
  unfold proxy_request, uuid4, _proxy_stdio_request, _proxy_http_request,
    stdin_write, readline, http_post. simpl.
  destruct (active_servers w !! server_id) as [info |]; [| reflexivity].
  destruct info as [srv p t | srv c t]; simpl.
  - destruct (io_stdin_write E _ p _); simpl; [| close_outcome].
    destruct (io_readline E _ p _) as [l |]; simpl; [| close_outcome].
    destruct (json_loads l); simpl; close_outcome.
  - destruct (s_transport_type srv); simpl;
      (destruct (io_http_post E _ c _ _) as [l |]; simpl; [| close_outcome];
       destruct (json_loads l); simpl; close_outcome).
Qed.

(** X2: a request to a provider registered over HTTP is one [POST] of the
    envelope to the path of its transport kind ([/sse], [/] or [/mcp]); the
    decoded body is the answer, and a failed exchange or an undecodable body
    is a 500. *)
Theorem proxy_request_http_exchange (E : Env) (server_id : Z) (method : string)
    (params : json) (w : World) (server : MCPServer) (client : base_url) (t : Z) :
  active_servers w !! server_id = Some (HttpInfo server client t) ->
  let body := envelope (io_uuid4 E (trace w)) method params in
  let path := post_path (s_transport_type server) in
  proxy_request E server_id method params w
  = (extend w [EvUuid4; EvHttpPost client path body],
     match io_http_post E (trace w ++ [EvUuid4]) client path body with
     | Return (Json response) => Return response
     | Return Malformed => Raise (HTTPException 500 (RequestFailed JSONDecodeError))
     | Raise e => Raise (HTTPException 500 (RequestFailed e))
     end).
Proof.
  intros Hinfo. cbv zeta.
  unfold proxy_request, uuid4, _proxy_http_request, http_post, envelope. simpl.
  rewrite Hinfo. simpl.
  destruct (s_transport_type server); simpl;
    (destruct (io_http_post E _ client _ _) as [[| response] | e]; simpl;
     rewrite ?log_event_extend, ?extend_extend; reflexivity).
Qed.

Lemma proxy_request_http_exchange_witness :
  proxy_request env_polite 5 "tools/list" JNull http_world
  = (extend http_world
       [EvUuid4; EvHttpPost (mkUrl "localhost" (Some 9000)) "/sse"
                   (envelope "req" "tools/list" JNull)],
     Return (JDict [("jsonrpc", JStr "2.0")])).
Proof.
  apply (proxy_request_http_exchange env_polite 5 "tools/list" JNull http_world
           (sample_http_server 5 SSE) (mkUrl "localhost" (Some 9000)) 11).
  vm_compute. reflexivity.
Defined.

(** ** Starting and stopping, in general *)

Lemma same_or_set_lookup_ne {V : Type} (i j : Z) (m m' : gmap Z V) :
  same_or_set i m m' -> j <> i -> m' !! j = m !! j.
Proof.
  intros [-> | [v ->]] Hne; [reflexivity |].
  apply lookup_insert_ne. congruence.
Qed.

Lemma start_outcome_others (server : MCPServer) (w w' : World) (b : bool) :
  start_outcome server w w' b -> others_untouched (s_id server) w w'.
Proof.
  intros (Hs & Hd & _ & Hp & Hh & Hb).
  split; [| split; assumption].
  intros j Hj.
  split; [| split; [exact (same_or_set_lookup_ne _ _ _ _ Hp Hj) |
                    split; [exact (same_or_set_lookup_ne _ _ _ _ Hh Hj) |]]].
  - destruct b.
    + destruct Hb as [[info ->] _]. apply lookup_insert_ne. congruence.
    + destruct Hb as [-> _]. reflexivity.
  - destruct b.
    + destruct Hb as [_ Hrow].
      destruct (db_servers w !! s_id server) as [row |].
      * destruct Hrow as [now ->]. apply lookup_insert_ne. congruence.
      * rewrite Hrow. reflexivity.
    + destruct Hb as [_ ->]. reflexivity.
Qed.

(** X3: [start_server] never raises and keeps to its own provider: the
    entries and rows of every other provider and the sessions are as before.
    When it returns [True] the provider has an entry in [active_servers] and
    its row, if it has one, is [ACTIVE]; when it returns [False] neither
    [active_servers] nor any row has changed, so an earlier registration of
    the provider survives a failed start. *)
Theorem start_server_isolated (E : Env) (server : MCPServer) (w : World) :
  exists w' b,
    start_server E server w = (w', Return b) /\
    others_untouched (s_id server) w w' /\
    (b = true ->
     is_Some (active_servers w' !! s_id server) /\
     (is_Some (db_servers w !! s_id server) ->
      s_status <$> db_servers w' !! s_id server = Some ACTIVE)) /\
    (b = false ->
     active_servers w' = active_servers w /\ db_servers w' = db_servers w).
Proof.
  destruct (start_server_cases E server w) as (w' & b & Hrun & Hout).
  exists w', b. split; [exact Hrun |].
  split; [exact (start_outcome_others server w w' b Hout) |].
  destruct Hout as (_ & _ & _ & _ & _ & Hb).
  split; intros ->.
  - destruct Hb as [[info ->] Hrow]. split.
    + rewrite lookup_insert_eq. eexists. reflexivity.
    + intros [row Hsome]. rewrite Hsome in Hrow. destruct Hrow as [now ->].
      rewrite lookup_insert_eq. reflexivity.
  - exact Hb.
Qed.



(** A provider configured without a port: the address reads
    [http://localhost:None], the client cannot be built and the start gives
    up before any request. *)
Example start_http_without_port :
  start_server env_polite (with_port (sample_http_server 5 HTTP) None) running_world
  = (running_world, Return false).
Proof. reflexivity. Qed.

Lemma stop_server_cases (E : Env) (server_id : Z) (w : World) :
  exists w' b, stop_server E server_id w = (w', Return b) /\ stop_outcome server_id w w' b.
Proof.
  unfold stop_server, stop_outcome. mstep.
  destruct (active_servers w !! server_id) as [info |] eqn:Hinfo; mstep.
  - destruct (close_transport_shape E info w) as (evs & closed & Hclose & Hevs).
    rewrite Hclose. destruct closed as [u | e]; mstep.
    + destruct (db_servers w !! server_id) as [row |] eqn:Hrow.
      * erewrite update_server_status_row by (world_proj; exact Hrow). mstep.
        do 2 eexists. split; [reflexivity |]. world_proj.
        repeat rewrite <- app_assoc.
        repeat split; try (eexists; reflexivity).
        eexists. split; [reflexivity |]. apply no_spawn_app; [exact Hevs | reflexivity].
      * rewrite update_server_status_no_row by (world_proj; exact Hrow). mstep.
        do 2 eexists. split; [reflexivity |]. world_proj.
        repeat split. eexists. split; [reflexivity | exact Hevs].
    + do 2 eexists. split; [reflexivity |]. world_proj.
      repeat split. eexists. split; [reflexivity | exact Hevs].
  - do 2 eexists. split; [reflexivity |].
    repeat split. exists []. split; [symmetry; apply app_nil_r | reflexivity].
Qed.

(** X5: [stop_server] keeps to its own provider as well: the entries and
    rows of every other provider and the sessions are as before, and
    stopping never spawns a subprocess. *)
Theorem stop_server_isolated (E : Env) (server_id : Z) (w : World) :
  exists w' b,
    stop_server E server_id w = (w', Return b) /\
    others_untouched server_id w w' /\
    exists evs, trace w' = trace w ++ evs /\ no_spawn evs.
Proof.
  destruct (stop_server_cases E server_id w) as (w' & b & Hrun & Hs & Hd & Htr & Hcase).
  exists w', b. split; [exact Hrun |]. split; [| exact Htr].
  split; [| split; assumption].
  intros j Hj.
  destruct (active_servers w !! server_id) as [info |].
  - destruct b.
    + destruct Hcase as (-> & -> & -> & Hrow).
      rewrite !lookup_delete_ne by congruence. repeat split.
      destruct (db_servers w !! server_id) as [row |].
      * destruct Hrow as [now ->]. apply lookup_insert_ne. congruence.
      * rewrite Hrow. reflexivity.
    + destruct Hcase as (-> & -> & -> & ->). repeat split.
  - destruct Hcase as [_ ->]. repeat split.
Qed.

(** X6: start then stop is a round trip on the registries.  If the provider
    had no entry in any registry, a start that succeeds followed by a stop
    that succeeds leaves the three registries exactly as they were, and the
    provider's row, if it has one, ends [INACTIVE]. *)
Theorem start_stop_roundtrip (E : Env) (server : MCPServer) (w w1 w2 : World) :
  active_servers w !! s_id server = None ->
  server_processes w !! s_id server = None ->
  http_clients w !! s_id server = None ->
  start_server E server w = (w1, Return true) ->
  stop_server E (s_id server) w1 = (w2, Return true) ->
  active_servers w2 = active_servers w /\
  server_processes w2 = server_processes w /\
  http_clients w2 = http_clients w /\
  (is_Some (db_servers w !! s_id server) ->
   s_status <$> db_servers w2 !! s_id server = Some INACTIVE).
Proof.
  intros Ha Hp Hh Hstart Hstop.
  destruct (start_server_cases E server w) as (w1' & b1 & Hrun1 & Hout1).
  rewrite Hstart in Hrun1. injection Hrun1 as <- <-.
  destruct Hout1 as (_ & _ & _ & Hp1 & Hh1 & [info Ha1] & Hrow1).
  destruct (stop_server_cases E (s_id server) w1) as (w2' & b2 & Hrun2 & Hout2).
  rewrite Hstop in Hrun2. injection Hrun2 as <- <-.
  destruct Hout2 as (_ & _ & _ & Hcase).
  rewrite Ha1, lookup_insert_eq in Hcase.
  destruct Hcase as (Ha2 & Hp2 & Hh2 & Hrow2).
  split; [| split; [| split]].
  - rewrite Ha2. apply delete_insert_id. exact Ha.
  - rewrite Hp2. destruct Hp1 as [-> | [p ->]];
      [apply delete_id | apply delete_insert_id]; exact Hp.
  - rewrite Hh2. destruct Hh1 as [-> | [c ->]];
      [apply delete_id | apply delete_insert_id]; exact Hh.
  - intros [row Hrow]. rewrite Hrow in Hrow1. destruct Hrow1 as [now Hdb1].
    rewrite Hdb1, lookup_insert_eq in Hrow2. destruct Hrow2 as [now' ->].
    rewrite lookup_insert_eq. reflexivity.
Qed.

Lemma start_stop_roundtrip_witness :
  let w1 := fst (start_server env_polite (sample_server 1) configured_world) in
  let w2 := fst (stop_server env_polite 1 w1) in
  active_servers w2 = active_servers configured_world /\
  server_processes w2 = server_processes configured_world /\
  http_clients w2 = http_clients configured_world /\
  (is_Some (db_servers configured_world !! 1) ->
   s_status <$> db_servers w2 !! 1 = Some INACTIVE).
Proof.
  cbv zeta.
  apply (start_stop_roundtrip env_polite (sample_server 1) configured_world
           (fst (start_server env_polite (sample_server 1) configured_world))
           (fst (stop_server env_polite 1
                   (fst (start_server env_polite (sample_server 1) configured_world)))));
    vm_compute; reflexivity.
Defined.

(** ** Capability probe *)

Lemma get_server_capabilities_run (E : Env) (server_id : Z) (w : World) :
  get_server_capabilities E server_id w
  = (fst (proxy_request E server_id "initialize" initialize_params w),
     Return (capabilities_of (snd (proxy_request E server_id "initialize" initialize_params w)))).
Proof.
  unfold get_server_capabilities. fold initialize_params. mstep.
  destruct (proxy_request E server_id "initialize" initialize_params w)
    as [w1 [response | e]]; mstep; [| reflexivity].
  destruct response as [| b | n | str | l | d]; try reflexivity.
Qed.

(** X7: [get_server_capabilities] never raises.  It makes one [initialize]
    call and returns the result member of an object answer; a failed call, an
    answer that is no object and an answer without result all give the empty
    object.  For a provider without a registered transport it gives the
    empty object without any external action. *)
Theorem get_server_capabilities_best_effort (E : Env) (server_id : Z) (w : World) :
  get_server_capabilities E server_id w
  = (fst (proxy_request E server_id "initialize" initialize_params w),
     Return (capabilities_of (snd (proxy_request E server_id "initialize" initialize_params w)))) /\
  (active_servers w !! server_id = None ->
   get_server_capabilities E server_id w = (w, Return (JDict []))).
Proof.
  split; [apply get_server_capabilities_run |].
  intros Hnone. rewrite get_server_capabilities_run.
  unfold proxy_request. mstep. rewrite Hnone. reflexivity.
Qed.

(** ** Routing leaves the state alone *)

Lemma call_each_io_only (E : Env) (method : string) (params : json) (servers : list Z) :
  forall w, io_only w (fst (call_each E method params servers w)).
Proof.
  induction servers as [| server_id rest IH]; intros w.
  - apply io_only_refl.
  - cbn [call_each].
    pose proof (proxy_request_io_only E server_id method params w) as Hstep.
    destruct (proxy_request E server_id method params w) as [w1 r]. cbn [fst] in Hstep.
    specialize (IH w1). destruct (call_each E method params rest w1) as [w2 rs].
    cbn [fst] in *. exact (io_only_trans _ _ _ Hstep IH).
Qed.

Lemma tool_call_loop_io_only (E : Env) (method : string) (params tool_name : json)
    (servers : list Z) :
  forall w, io_only w (fst (tool_call_loop E method params tool_name servers w)).
Proof.
  induction servers as [| server_id rest IH]; intros w.
  - apply io_only_refl.
  - cbn [tool_call_loop]. unfold bind at 1. rewrite tool_call_step_spec. cbv zeta.
    pose proof (proxy_request_io_only E server_id "tools/list" JNull w) as Hprobe.
    destruct (proxy_request E server_id "tools/list" JNull w) as [w1 r]. cbn [fst snd] in *.
    destruct (advertises tool_name r).
    + pose proof (proxy_request_io_only E server_id method params w1) as Hcall.
      destruct (proxy_request E server_id method params w1) as [w2 [response | e]];
        cbn [fst snd] in *.
      * exact (io_only_trans _ _ _ Hprobe Hcall).
      * exact (io_only_trans _ _ _ Hprobe (io_only_trans _ _ _ Hcall (IH w2))).
    + exact (io_only_trans _ _ _ Hprobe (IH w1)).
Qed.

Lemma route_request_io_only (E : Env) (session_id method : string)
    (params : json) (w : World) :
  io_only w (fst (route_request E session_id method params w)).
Proof.
  unfold route_request. cbn [bind get].
  destruct (sessions w !! session_id) as [s |]; [| apply io_only_refl].
  destruct (existsb (String.eqb method) list_methods).
  - unfold _aggregate_from_servers. unfold bind at 1. rewrite aggregate_loop_spec.
    pose proof (call_each_io_only E method params (connected_servers s) w) as Hloop.
    destruct (call_each E method params (connected_servers s) w) as [w1 rs].
    cbn [fst snd] in *. simpl. destruct (get_if_truthy params "id"); exact Hloop.
  - destruct (String.prefix "tools/call" method).
    + unfold _route_tool_call. cbn [bind lift].
      destruct (get_if_truthy params "name") as [tool_name | e]; [| apply io_only_refl].
      destruct (truthy tool_name); cbn [negb]; [| apply io_only_refl].
      apply tool_call_loop_io_only.
    + unfold _route_to_primary_server.
      destruct (connected_servers s); [apply io_only_refl | apply proxy_request_io_only].
Qed.

(** X8: routing reads the state and talks to providers, nothing more.
    Whatever the session, method and parameters, after [route_request] the
    registries, the sessions and the rows are as before and only the trace
    has grown, without a spawn. *)
Theorem route_request_read_only (E : Env) (session_id method : string)
    (params : json) (w : World) :
  exists evs,
    fst (route_request E session_id method params w) = extend w evs /\ no_spawn evs.
Proof. exact (route_request_io_only E session_id method params w). Qed.

(** X9: when the provider that advertises a tool fails the call, the
    failure is dropped and the search goes on; if no later provider
    advertises the tool, the caller is told 404 "Tool ... not found" and not
    what went wrong. *)
Theorem tool_call_failure_reported_not_found (E : Env) (session_id method : string)
    (params tool_name : json) (s : session) (rest : list Z) (p : Z)
    (w w1 w2 w3 : World) (e : exn) :
  sessions w !! session_id = Some s ->
  String.prefix "tools/call" method = true ->
  get_if_truthy params "name" = Return tool_name ->
  truthy tool_name = true ->
  first_advertiser E tool_name (connected_servers s) w = (w1, Some (p, rest)) ->
  proxy_request E p method params w1 = (w2, Raise e) ->
  first_advertiser E tool_name rest w2 = (w3, None) ->
  route_request E session_id method params w
  = (w3, Raise (HTTPException 404 (ToolNotFound tool_name))).
Proof.
  intros Hs Hprefix Hname Htruthy Hfirst Hcall Hrest.
  unfold route_request. cbn [bind get].
  rewrite Hs, (tools_call_not_list method Hprefix), Hprefix.
  unfold _route_tool_call. cbn [bind lift]. rewrite Hname, Htruthy. cbn [negb].
  rewrite (tool_call_loop_some E method params tool_name _ w w1 p rest Hfirst).
  rewrite Hcall. cbn [fst snd].
  apply tool_call_loop_none. exact Hrest.
Qed.

Lemma tool_call_failure_reported_not_found_witness :
  route_request env_flaky "s" "tools/call" echo_params flaky_world
  = (fst (proxy_request env_flaky 1 "tools/call" echo_params
            (fst (first_advertiser env_flaky (JStr "echo") [1] flaky_world))),
     Raise (HTTPException 404 (ToolNotFound (JStr "echo")))).
Proof.
  apply (tool_call_failure_reported_not_found env_flaky "s" "tools/call" echo_params
           (JStr "echo") (mkSession "api" (JDict []) [1] 0) [] 1 flaky_world
           (fst (first_advertiser env_flaky (JStr "echo") [1] flaky_world))
           (fst (proxy_request env_flaky 1 "tools/call" echo_params
                   (fst (first_advertiser env_flaky (JStr "echo") [1] flaky_world))))
           (fst (proxy_request env_flaky 1 "tools/call" echo_params
                   (fst (first_advertiser env_flaky (JStr "echo") [1] flaky_world))))
           (HTTPException 500 (RequestFailed TimeoutError))).
  - vm_compute. reflexivity.
  - reflexivity.
  - reflexivity.
  - reflexivity.
  - vm_compute. reflexivity.
  - vm_compute. reflexivity.
  - reflexivity.
Defined.

(** ** One provider's share of an aggregate *)

(** X10: a provider's share of an aggregate is all or nothing.  If its
    answer is a list in which one item is no object, tagging fails on that
    item and the loop turn keeps the results it had: none of the provider's
    items is taken, the well-formed ones included. *)
Theorem aggregate_all_or_nothing (E : Env) (method : string) (params : json)
    (results : list json) (server_id : Z) (w w1 : World) (d : dict) (items : list json) :
  proxy_request E server_id method params w = (w1, Return (JDict d)) ->
  dict_get "result" d = Some (JList items) ->
  existsb (fun item => negb (is_dict item)) items = true ->
  aggregate_step E method params results server_id w = (w1, Return results).
Proof.
  intros Hcall Hres Hbad. rewrite aggregate_step_spec, Hcall. cbn [fst snd].
  unfold contribution, items_of. rewrite Hres, (mapM_tag_non_object _ _ Hbad).
  simpl. rewrite app_nil_r. reflexivity.
Qed.

Lemma aggregate_all_or_nothing_witness :
  exists w1,
    aggregate_step env_mixed_items "tools/list" JNull [JStr "kept"] 1 running_world
    = (w1, Return [JStr "kept"]).
Proof.
  exists (fst (proxy_request env_mixed_items 1 "tools/list" JNull running_world)).
  apply (aggregate_all_or_nothing env_mixed_items "tools/list" JNull [JStr "kept"] 1
           running_world _
           [("jsonrpc", JStr "2.0");
            ("result", JList [JDict [("name", JStr "echo")]; JStr "odd"])]
           [JDict [("name", JStr "echo")]; JStr "odd"]).
  - vm_compute. reflexivity.
  - reflexivity.
  - reflexivity.
Defined.

(** ** What the calls do to the sessions *)

Lemma health_check_cases (E : Env) (server_id : Z) (w : World) :
  exists w' b, health_check E server_id w = (w', Return b) /\ health_outcome server_id w w' b.
Proof.
  unfold health_check, health_outcome. mstep.
  destruct (active_servers w !! server_id) as [info |]; mstep.
  - destruct (proxy_request_shape E server_id "ping" JNull w) as (evs & r & Hrun & Hevs).
    rewrite Hrun.
    destruct (db_servers w !! server_id) as [row |] eqn:Hrow.
    + assert (Hrow' : db_servers (extend w evs) !! server_id = Some row) by exact Hrow.
      destruct r as [response | e]; mstep;
        rewrite (update_server_status_row E server_id _ _ row Hrow'); mstep;
        do 2 eexists; (split; [reflexivity |]); world_proj;
        repeat rewrite <- app_assoc;
        (repeat split;
         [eexists; split; [reflexivity | apply no_spawn_app; [exact Hevs | reflexivity]]
         | right; do 2 eexists; split; reflexivity]).
    + assert (Hrow' : db_servers (extend w evs) !! server_id = None) by exact Hrow.
      destruct r as [response | e]; mstep;
        rewrite (update_server_status_no_row E server_id _ _ Hrow'); mstep;
        do 2 eexists; (split; [reflexivity |]); world_proj;
        (repeat split;
         [eexists; split; [reflexivity | exact Hevs] | left; reflexivity]).
  - do 2 eexists. split; [reflexivity |]. repeat split.
    + exists []. split; [symmetry; apply app_nil_r | reflexivity].
    + left. reflexivity.
Qed.

Lemma io_only_sessions (w w' : World) : io_only w w' -> sessions w' = sessions w.
Proof. intros (evs & -> & _). reflexivity. Qed.

Lemma create_session_sessions (E : Env) (client_type : string) (client_info : json) (w : World) :
  exists now,
    sessions (fst (create_session E client_type client_info w))
    = <[io_uuid4 E (trace w) := mkSession client_type (or_empty_dict client_info) [] now]>
        (sessions w).
Proof. eexists. reflexivity. Qed.

Lemma unattached_insert (w w' : World) (session_id : string) (s : session) :
  unattached w ->
  connected_servers s = [] ->
  sessions w' = <[session_id := s]> (sessions w) ->
  unattached w'.
Proof.
  intros Hw Hs Heq sid s' Hlook. rewrite Heq in Hlook.
  destruct (decide (session_id = sid)) as [-> | Hne].
  - rewrite lookup_insert_eq in Hlook. injection Hlook as <-. exact Hs.
  - rewrite lookup_insert_ne in Hlook by exact Hne. exact (Hw sid s' Hlook).
Qed.

Lemma unattached_same (w w' : World) :
  unattached w -> sessions w' = sessions w -> unattached w'.
Proof. intros Hw Heq sid s Hlook. rewrite Heq in Hlook. exact (Hw sid s Hlook). Qed.

Lemma route_decoded_io_only (E : Env) (session_id method params : json) (w : World) :
  io_only w (fst (route_decoded E session_id method params w)).
Proof.
  unfold route_decoded.
  destruct session_id; try apply io_only_refl.
  destruct method; try apply route_request_io_only;
    (cbn [bind get]; destruct (sessions w !! s); apply io_only_refl).
Qed.

(** [create_session], run: the world it leaves and the identifier it
    returns. *)
Lemma create_session_run (E : Env) (client_type : string) (client_info : json) (w : World) :
  create_session E client_type client_info w
  = (set_sessions
       <[io_uuid4 E (trace w) :=
           mkSession client_type (or_empty_dict client_info) []
             (io_utcnow E (trace w ++ [EvUuid4]))]>
       (log_event EvUtcnow
          (set_db_sessions
             (fun rows => rows ++ [mkDBSession (io_uuid4 E (trace w)) client_type
                                     (or_empty_dict client_info) [] true])
             (log_event EvUuid4 w))),
     Return (io_uuid4 E (trace w))).
Proof. reflexivity. Qed.

Ltac hstep := cbn [try_except bind lift ret raise negb fst snd].

Ltac abandon_request request_data :=
  destruct (py_get request_data "id" JNull); hstep.

Lemma handle_mcp_request_sessions (E : Env) (body : line) (current_user : json) (w : World) :
  let w' := fst (handle_mcp_request E body current_user w) in
  sessions w' = sessions w \/
  exists session_id s, connected_servers s = [] /\ sessions w' = <[session_id := s]> (sessions w).
Proof.
  cbv zeta. unfold handle_mcp_request.
  destruct (json_loads body) as [request_data | e]; [| left; reflexivity].
  hstep.
  destruct (py_get current_user "session_id" JNull) as [session_id | e]; hstep.
  2: { abandon_request request_data; left; reflexivity. }
  destruct (truthy session_id); hstep.
  - destruct (py_get request_data "method" JNull) as [method | e]; hstep.
    2: { abandon_request request_data; left; reflexivity. }
    destruct (py_get request_data "params" JNull) as [params | e]; hstep.
    2: { abandon_request request_data; left; reflexivity. }
    pose proof (route_decoded_io_only E session_id method params w) as Hroute.
    destruct (route_decoded E session_id method params w) as [w1 [response | e]];
      cbn [fst] in Hroute; hstep.
    + left. exact (io_only_sessions _ _ Hroute).
    + abandon_request request_data; left; exact (io_only_sessions _ _ Hroute).
  - destruct (py_get current_user "type" (JStr "api")) as [client_type | e]; hstep.
    2: { abandon_request request_data; left; reflexivity. }
    destruct client_type as [| b | n | t | l | d]; hstep;
      try (abandon_request request_data; left; reflexivity).
    rewrite create_session_run. hstep.
    set (w0 := set_sessions _ _).
    assert (Hcreated : sessions w0
                       = <[io_uuid4 E (trace w) :=
                             mkSession t (or_empty_dict current_user) []
                               (io_utcnow E (trace w ++ [EvUuid4]))]> (sessions w))
      by reflexivity.
    clearbody w0.
    destruct (py_get request_data "method" JNull) as [method | e]; hstep.
    2: { abandon_request request_data; right;
         (do 2 eexists; split; [| exact Hcreated]; reflexivity). }
    destruct (py_get request_data "params" JNull) as [params | e]; hstep.
    2: { abandon_request request_data; right;
         (do 2 eexists; split; [| exact Hcreated]; reflexivity). }
    pose proof (route_decoded_io_only E (JStr (io_uuid4 E (trace w))) method params w0)
      as Hroute.
    destruct (route_decoded E (JStr (io_uuid4 E (trace w))) method params w0)
      as [w1 [response | e]]; cbn [fst] in Hroute; hstep.
    + right. do 2 eexists. split; [| rewrite (io_only_sessions _ _ Hroute); exact Hcreated].
      reflexivity.
    + abandon_request request_data; right;
        (do 2 eexists; split; [| rewrite (io_only_sessions _ _ Hroute); exact Hcreated];
         reflexivity).
Qed.

Lemma run_call_unattached (E : Env) (c : gateway_call) (w : World) :
  unattached w -> unattached (run_call E c w).
Proof.
  intros Hw. destruct c as [server | id | id | id | ct ci | sid m p | body cu]; cbn [run_call].
  - destruct (start_server_cases E server w) as (w' & b & Hrun & Hs & _).
    rewrite Hrun. exact (unattached_same _ _ Hw Hs).
  - destruct (stop_server_cases E id w) as (w' & b & Hrun & Hs & _).
    rewrite Hrun. exact (unattached_same _ _ Hw Hs).
  - destruct (health_check_cases E id w) as (w' & b & Hrun & _ & _ & _ & Hs & _).
    rewrite Hrun. exact (unattached_same _ _ Hw Hs).
  - rewrite get_server_capabilities_run. cbn [fst].
    apply (unattached_same _ _ Hw), io_only_sessions, proxy_request_io_only.
  - destruct (create_session_sessions E ct ci w) as [now Hcreated].
    apply (unattached_insert w _ (io_uuid4 E (trace w))
             (mkSession ct (or_empty_dict ci) [] now) Hw);
      [reflexivity | exact Hcreated].
  - apply (unattached_same _ _ Hw), io_only_sessions, route_request_io_only.
  - destruct (handle_mcp_request_sessions E body cu w) as [Hsame | (sid & s & Hs & Hins)].
    + exact (unattached_same _ _ Hw Hsame).
    + exact (unattached_insert _ _ _ _ Hw Hs Hins).
Qed.

(** X11: no call attaches a provider to a session.  If every session is
    without providers, it is so again after any sequence of calls into the
    manager and the gateway: starting, stopping and checking providers,
    probing capabilities, creating sessions, routing, and handling requests. *)
Theorem sessions_never_attached (E : Env) (cs : list gateway_call) (w : World) :
  unattached w -> unattached (run_calls E cs w).
Proof.
  revert w. induction cs as [| c cs IH]; intros w Hw; [exact Hw |].
  cbn [run_calls]. apply IH, run_call_unattached, Hw.
Qed.

Lemma unattached_empty : unattached empty_world.
Proof. intros session_id s Hlook. vm_compute in Hlook. discriminate Hlook. Qed.

Lemma unattached_running : unattached running_world.
Proof. intros session_id s Hlook. vm_compute in Hlook. discriminate Hlook. Qed.

Lemma sessions_never_attached_witness :
  unattached
    (run_calls env_polite
       [CallStart (sample_server 1);
        CallCreateSession "api" JNull;
        CallHandle (Json (JDict [("id", JNum 1); ("method", JStr "tools/list")]))
          (JDict [("type", JStr "api_key")]);
        CallHealthCheck 1;
        CallStop 1]
       empty_world).
Proof.
  apply (sessions_never_attached env_polite _ empty_world). exact unattached_empty.
Defined.

(** X12: in a world where no session has a provider, routing contacts
    nobody: [route_request] leaves the world exactly as it was, trace
    included, and the only answer it can return is the aggregate envelope
    with an empty result. *)
Theorem unattached_routing_contacts_nobody (E : Env) (session_id method : string)
    (params : json) (w : World) :
  unattached w ->
  fst (route_request E session_id method params w) = w /\
  forall response,
    snd (route_request E session_id method params w) = Return response ->
    existsb (String.eqb method) list_methods = true /\
    exists id, response = JDict [("jsonrpc", JStr "2.0"); ("id", id); ("result", JList [])].
Proof.
  intros Hw. unfold route_request. cbn [bind get].
  destruct (sessions w !! session_id) as [s |] eqn:Hs.
  2: { split; [reflexivity | discriminate]. }
  pose proof (Hw session_id s Hs) as Hnone.
  destruct (existsb (String.eqb method) list_methods).
  - unfold _aggregate_from_servers. rewrite Hnone. cbn [aggregate_loop bind ret lift].
    destruct (get_if_truthy params "id") as [id | e]; cbn [fst snd].
    + split; [reflexivity |]. intros response Hr. injection Hr as <-.
      split; [reflexivity | eexists; reflexivity].
    + split; [reflexivity | discriminate].
  - destruct (String.prefix "tools/call" method).
    + unfold _route_tool_call. rewrite Hnone. cbn [bind lift].
      destruct (get_if_truthy params "name") as [tool_name | e]; cbn [fst snd];
        [| split; [reflexivity | discriminate]].
      destruct (truthy tool_name); cbn [negb tool_call_loop raise fst snd];
        (split; [reflexivity | discriminate]).
    + unfold _route_to_primary_server. rewrite Hnone.
      split; [reflexivity | discriminate].
Qed.

Lemma unattached_routing_contacts_nobody_witness :
  let w := fst (create_session env_polite "api" JNull running_world) in
  fst (route_request env_polite "req" "tools/list" JNull w) = w /\
  forall response,
    snd (route_request env_polite "req" "tools/list" JNull w) = Return response ->
    existsb (String.eqb "tools/list") list_methods = true /\
    exists id, response = JDict [("jsonrpc", JStr "2.0"); ("id", id); ("result", JList [])].
Proof.
  apply (unattached_routing_contacts_nobody env_polite "req" "tools/list" JNull).
  exact (run_call_unattached env_polite (CallCreateSession "api" JNull) running_world
           unattached_running).
Defined.

(** ** The entry point *)

(** X14: a body that is valid JSON but no object (a batch, say) is not
    answered with an error envelope: building the envelope asks the body for
    its identifier, which raises [AttributeError] out of the handler. *)
Theorem handle_mcp_request_non_object_body (E : Env) (request_data : json) (cu : dict)
    (w : World) :
  is_dict request_data = false ->
  snd (handle_mcp_request E (Json request_data) (JDict cu) w) = Raise AttributeError.
Proof.
  intros Hbody. unfold handle_mcp_request. cbn [json_loads]. hstep.
  destruct request_data; try discriminate Hbody; cbn [py_get lift].
  all: destruct (truthy match dict_get "session_id" cu with Some v => v | None => JNull end);
    hstep; [reflexivity |].
  all: destruct (match dict_get "type" cu with Some v => v | None => JStr "api" end)
      as [| b' | n' | t | l' | d0]; hstep; try reflexivity.
  all: rewrite create_session_run; reflexivity.
Qed.

Lemma handle_mcp_request_non_object_body_witness :
  snd (handle_mcp_request env_polite
         (Json (JList [JDict [("id", JNum 1); ("method", JStr "ping")]]))
         (JDict [("type", JStr "api_key")]) running_world)
  = Raise AttributeError.
Proof.
  apply (handle_mcp_request_non_object_body env_polite
           (JList [JDict [("id", JNum 1); ("method", JStr "ping")]])
           [("type", JStr "api_key")] running_world).
  reflexivity.
Defined.

(** X15: a user without a session identifier gets a new session with every
    request.  Whatever the request object asks for, the call adds one row to
    the sessions table and one entry to the gateway's sessions, under the
    identifier drawn at the start of the call. *)
Theorem handle_mcp_request_session_per_request (E : Env) (d cu : dict) (t : string)
    (w : World) :
  truthy (default JNull (dict_get "session_id" cu)) = false ->
  default (JStr "api") (dict_get "type" cu) = JStr t ->
  let w' := fst (handle_mcp_request E (Json (JDict d)) (JDict cu) w) in
  let session_id := io_uuid4 E (trace w) in
  db_sessions w'
  = db_sessions w ++ [mkDBSession session_id t (or_empty_dict (JDict cu)) [] true] /\
  sessions w'
  = <[session_id := mkSession t (or_empty_dict (JDict cu)) []
                      (io_utcnow E (trace w ++ [EvUuid4]))]> (sessions w).
Proof.
  intros Hsid Htype. cbv zeta.
  unfold handle_mcp_request. cbn [json_loads]. hstep. cbn [py_get lift].
  change (match dict_get "session_id" cu with Some v => v | None => JNull end)
    with (default JNull (dict_get "session_id" cu)).
  change (match dict_get "type" cu with Some v => v | None => JStr "api" end)
    with (default (JStr "api") (dict_get "type" cu)).
  rewrite Hsid, Htype. hstep. rewrite create_session_run. hstep.
  set (w0 := set_sessions _ _).
  pose proof (route_decoded_io_only E (JStr (io_uuid4 E (trace w)))
                match dict_get "method" d with Some v => v | None => JNull end
                match dict_get "params" d with Some v => v | None => JNull end w0)
    as (evs & Hw1 & _).
  destruct (route_decoded E _ _ _ w0) as [w1 [response | e]];
    cbn [fst] in Hw1; hstep; subst w1; split; reflexivity.
Qed.

Lemma handle_mcp_request_session_per_request_witness :
  let w' := fst (handle_mcp_request env_polite
                   (Json (JDict [("id", JNum 1); ("method", JStr "ping")]))
                   (JDict [("type", JStr "api_key")]) running_world) in
  db_sessions w'
  = db_sessions running_world
    ++ [mkDBSession "req" "api_key" (or_empty_dict (JDict [("type", JStr "api_key")])) [] true] /\
  sessions w'
  = <["req" := mkSession "api_key" (or_empty_dict (JDict [("type", JStr "api_key")])) []
                 (io_utcnow env_polite (trace running_world ++ [EvUuid4]))]>
      (sessions running_world).
Proof.
  apply (handle_mcp_request_session_per_request env_polite
           [("id", JNum 1); ("method", JStr "ping")] [("type", JStr "api_key")] "api_key"
           running_world); reflexivity.
Defined.

(** ** The health loop *)

Lemma same_config_refl (row : MCPServer) : same_config row row.
Proof. repeat split. Qed.

Lemma same_config_trans (a b c : MCPServer) :
  same_config a b -> same_config b c -> same_config a c.
Proof.
  unfold same_config. intros Hab Hbc.
  repeat match goal with H : _ /\ _ |- _ => destruct H end.
  repeat split; congruence.
Qed.

Lemma same_config_with_status (row : MCPServer) (st : ServerStatus) (now : Z) :
  same_config row (with_status row st now).
Proof. repeat split. Qed.

Lemma tick_rel_refl (P : Z -> Prop) (w : World) : tick_rel P w w.
Proof.
  repeat split.
  - exists []. split; [symmetry; apply app_nil_r | reflexivity].
  - intros server_id row Hrow. exists row. split; [exact Hrow | apply same_config_refl].
Qed.

Lemma tick_rel_trans (P : Z -> Prop) (w1 w2 w3 : World) :
  tick_rel P w1 w2 -> tick_rel P w2 w3 -> tick_rel P w1 w3.
Proof.
  intros (Ha & Hp & Hh & Hs & Hd & (evs & Htr & Hevs) & Hout & Hrows)
         (Ha' & Hp' & Hh' & Hs' & Hd' & (evs' & Htr' & Hevs') & Hout' & Hrows').
  repeat split; try congruence.
  - exists (evs ++ evs'). split.
    + rewrite Htr', Htr, app_assoc. reflexivity.
    + apply no_spawn_app; assumption.
  - intros server_id Hnot. rewrite (Hout' server_id Hnot). exact (Hout server_id Hnot).
  - intros server_id row Hrow.
    destruct (Hrows server_id row Hrow) as (row' & Hrow' & Hcfg).
    destruct (Hrows' server_id row' Hrow') as (row'' & Hrow'' & Hcfg').
    exists row''. split; [exact Hrow'' | exact (same_config_trans _ _ _ Hcfg Hcfg')].
Qed.

Lemma tick_rel_utcnow (P : Z -> Prop) (w : World) : tick_rel P w (log_event EvUtcnow w).
Proof.
  repeat split.
  - exists [EvUtcnow]. split; reflexivity.
  - intros server_id row Hrow. exists row. split; [exact Hrow | apply same_config_refl].
Qed.

Lemma health_check_tick_rel (E : Env) (P : Z -> Prop) (server_id : Z) (w : World) :
  P server_id ->
  exists w' b, health_check E server_id w = (w', Return b) /\ tick_rel P w w'.
Proof.
  intros HP.
  destruct (health_check_cases E server_id w)
    as (w' & b & Hrun & Ha & Hp & Hh & Hs & Hd & Htr & Hdb).
  exists w', b. split; [exact Hrun |].
  repeat split; try assumption.
  - intros j Hj. destruct Hdb as [-> | (row & now & _ & ->)]; [reflexivity |].
    apply lookup_insert_ne. intros ->. exact (Hj HP).
  - intros j row Hrow. destruct Hdb as [-> | (row0 & now & Hrow0 & ->)].
    + exists row. split; [exact Hrow | apply same_config_refl].
    + destruct (decide (server_id = j)) as [-> | Hne].
      * rewrite lookup_insert_eq. eexists. split; [reflexivity |].
        rewrite Hrow in Hrow0. injection Hrow0 as <-. apply same_config_with_status.
      * rewrite lookup_insert_ne by exact Hne.
        exists row. split; [exact Hrow | apply same_config_refl].
Qed.

Lemma check_due_run (E : Env) (P : Z -> Prop) (server : MCPServer) (w : World) :
  exists w' due, check_due E server w = (w', Return due) /\ tick_rel P w w'.
Proof.
  unfold check_due, utcnow. destruct (s_last_health_check server); mstep.
  - do 2 eexists. split; [reflexivity | apply tick_rel_utcnow].
  - do 2 eexists. split; [reflexivity | apply tick_rel_refl].
Qed.

Lemma health_tick_loop_rel (E : Env) (P : Z -> Prop) (ids : list Z) :
  Forall P ids ->
  forall w, exists w' r, health_tick_loop E ids w = (w', r) /\ tick_rel P w w'.
Proof.
  induction 1 as [| server_id rest HP _ IH]; intros w.
  - do 2 eexists. split; [reflexivity | apply tick_rel_refl].
  - cbn [health_tick_loop]. mstep.
    destruct (db_servers w !! server_id) as [server |]; mstep.
    2: { do 2 eexists. split; [reflexivity | apply tick_rel_refl]. }
    destruct (check_due_run E P server w) as (w1 & due & Hdue & Hrel1).
    rewrite Hdue. destruct due; mstep.
    + destruct (health_check_tick_rel E P server_id w1 HP) as (w2 & b & Hhc & Hrel2).
      rewrite Hhc. mstep.
      destruct (IH w2) as (w3 & r & Hloop & Hrel3).
      rewrite Hloop. exists w3, r. split; [reflexivity |].
      exact (tick_rel_trans _ _ _ _ Hrel1 (tick_rel_trans _ _ _ _ Hrel2 Hrel3)).
    + destruct (IH w1) as (w3 & r & Hloop & Hrel3).
      rewrite Hloop. exists w3, r. split; [reflexivity |].
      exact (tick_rel_trans _ _ _ _ Hrel1 Hrel3).
Qed.

Lemma active_ids_active (w : World) :
  Forall (fun server_id => s_status <$> db_servers w !! server_id = Some ACTIVE) (active_ids w).
Proof.
  apply Forall_forall. intros server_id Hin. unfold active_ids in Hin.
  apply list_elem_of_In, in_map_iff in Hin as ([k row] & <- & Hin).
  apply filter_In in Hin as [Hin Hst]. cbn [fst snd] in *.
  apply list_elem_of_In, elem_of_map_to_list in Hin. rewrite Hin. cbn.
  destruct (s_status row); try discriminate Hst. reflexivity.
Qed.

(** X16: a turn of the health loop never raises and only ever rewrites the
    rows of providers that were [ACTIVE] when it began.  The registries and
    the sessions are as before, no subprocess is spawned, the row of a
    provider that was [ERROR], [INACTIVE] or in between is untouched (the
    loop never looks at it again), and every row keeps its configuration and
    its restart counter. *)
Theorem health_check_tick_spec (E : Env) (w : World) :
  exists w',
    health_check_tick E w = (w', Return tt) /\
    tick_rel (fun server_id => s_status <$> db_servers w !! server_id = Some ACTIVE) w w'.
Proof.
  unfold health_check_tick. mstep.
  destruct (health_tick_loop_rel E _ (active_ids w) (active_ids_active w) w)
    as (w' & r & Hloop & Hrel).
  rewrite Hloop. exists w'. split; [| exact Hrel].
  destruct r as [[] | e]; reflexivity.
Qed.

Lemma health_tick_loop_unregistered (E : Env) (ids : list Z) :
  forall w,
    (forall server_id, active_servers w !! server_id = None) ->
    exists evs r,
      health_tick_loop E ids w = (extend w evs, r) /\
      Forall (fun ev => ev = EvUtcnow) evs.
Proof.
  induction ids as [| server_id rest IH]; intros w Hnone.
  - exists [], (Return tt). rewrite extend_nil. split; [reflexivity | constructor].
  - cbn [health_tick_loop]. mstep.
    destruct (db_servers w !! server_id) as [server |]; mstep.
    2: { exists [], (Raise (OSError "ObjectDeletedError")).
         rewrite extend_nil. split; [reflexivity | constructor]. }
    assert (Hhc : forall w0, active_servers w0 !! server_id = None ->
                             health_check E server_id w0 = (w0, Return false)).
    { intros w0 H0. unfold health_check. mstep. rewrite H0. reflexivity. }
    unfold check_due, utcnow. destruct (s_last_health_check server); mstep.
    + destruct (Z.ltb _ _); mstep.
      * rewrite Hhc by apply Hnone. mstep.
        destruct (IH (log_event EvUtcnow w) Hnone) as (evs & r & Hloop & Hevs).
        rewrite Hloop. exists (EvUtcnow :: evs), r.
        rewrite log_event_extend, extend_extend. split; [reflexivity |].
        constructor; [reflexivity | exact Hevs].
      * destruct (IH (log_event EvUtcnow w) Hnone) as (evs & r & Hloop & Hevs).
        rewrite Hloop. exists (EvUtcnow :: evs), r.
        rewrite log_event_extend, extend_extend. split; [reflexivity |].
        constructor; [reflexivity | exact Hevs].
    + rewrite Hhc by apply Hnone. mstep.
      destruct (IH w Hnone) as (evs & r & Hloop & Hevs).
      rewrite Hloop. exists evs, r. split; [reflexivity | exact Hevs].
Qed.

(** X17: when no transport is registered, as after a restart of the gateway
    process, a turn of the health loop reads the clock and nothing else.
    Every row is left as it is, so providers that the database calls
    [ACTIVE] stay [ACTIVE] although nothing can reach them. *)
Theorem health_check_tick_unregistered (E : Env) (w : World) :
  (forall server_id, active_servers w !! server_id = None) ->
  exists evs,
    health_check_tick E w = (extend w evs, Return tt) /\
    Forall (fun ev => ev = EvUtcnow) evs.
Proof.
  intros Hnone. unfold health_check_tick. mstep.
  destruct (health_tick_loop_unregistered E (active_ids w) w Hnone) as (evs & r & Hloop & Hevs).
  rewrite Hloop. exists evs. split; [| exact Hevs].
  destruct r as [[] | e]; reflexivity.
Qed.

Lemma health_check_tick_unregistered_witness :
  (s_status <$> db_servers restarted_world !! 1) = Some ACTIVE /\
  exists evs,
    health_check_tick env_polite restarted_world = (extend restarted_world evs, Return tt) /\
    Forall (fun ev => ev = EvUtcnow) evs.
Proof.
  split; [vm_compute; reflexivity |].
  apply (health_check_tick_unregistered env_polite restarted_world).
  intros server_id. vm_compute. reflexivity.
Defined.

(** ** One-time authorization codes *)

(** X18: a code can be redeemed by the client it was issued to.  Issued at
    [issued] and presented with the same client and redirect address no more
    than ten minutes later, it is accepted: the data come back with the scope
    it was issued for, marked used. *)
Theorem authorization_code_roundtrip (code client_id redirect_uri : string)
    (scope : option string) (issued now : Z) (codes : gmap string code_data) :
  now - issued <= seconds 600 ->
  let issued_codes :=
    fst (create_authorization_code code issued client_id redirect_uri scope codes) in
  verify_authorization_code now code client_id redirect_uri issued_codes
  = (<[code := mkCode client_id redirect_uri scope issued true]> issued_codes,
     Some (mkCode client_id redirect_uri scope issued true)).
Proof.
  intros Hfresh. cbv zeta. unfold verify_authorization_code, create_authorization_code.
  cbn [fst]. rewrite lookup_insert_eq. cbn [cd_used cd_created_at cd_client_id cd_redirect_uri].
  destruct (Z.ltb_spec (seconds 600) (now - issued)) as [Hlate |]; [lia |].
  rewrite !String.eqb_refl. reflexivity.
Qed.

Lemma authorization_code_roundtrip_witness :
  verify_authorization_code (seconds 600) "c0de" "chatgpt" "https://cb" 
    (fst (create_authorization_code "c0de" 0 "chatgpt" "https://cb" (Some "mcp:read") ∅))
  = (<["c0de" := mkCode "chatgpt" "https://cb" (Some "mcp:read") 0 true]>
       (fst (create_authorization_code "c0de" 0 "chatgpt" "https://cb" (Some "mcp:read") ∅)),
     Some (mkCode "chatgpt" "https://cb" (Some "mcp:read") 0 true)).
Proof.
  apply (authorization_code_roundtrip "c0de" "chatgpt" "https://cb" (Some "mcp:read")
           0 (seconds 600) ∅).
  vm_compute. discriminate.
Defined.

(** X19: a code is redeemed at most once.  Once a verification has returned
    the data of a code, every later verification of that code, at any time
    and for any client, returns nothing and leaves the store as it is. *)
Theorem authorization_code_single_use (code client_id redirect_uri : string) (now : Z)
    (codes codes' : gmap string code_data) (d : code_data) :
  verify_authorization_code now code client_id redirect_uri codes = (codes', Some d) ->
  forall later client_id' redirect_uri',
    verify_authorization_code later code client_id' redirect_uri' codes' = (codes', None).
Proof.
  unfold verify_authorization_code. intros Hfirst later client_id' redirect_uri'.
  destruct (codes !! code) as [d0 |]; [| discriminate Hfirst].
  destruct (cd_used d0); [discriminate Hfirst |].
  destruct (Z.ltb _ _); [discriminate Hfirst |].
  destruct (_ || _); [discriminate Hfirst |].
  injection Hfirst as <- <-. rewrite lookup_insert_eq. reflexivity.
Qed.

Lemma authorization_code_single_use_witness :
  let codes := fst (create_authorization_code "c0de" 0 "chatgpt" "https://cb" None ∅) in
  let codes' := fst (verify_authorization_code 5 "c0de" "chatgpt" "https://cb" codes) in
  verify_authorization_code 6 "c0de" "chatgpt" "https://cb" codes' = (codes', None).
Proof.
  cbv zeta.
  apply (authorization_code_single_use "c0de" "chatgpt" "https://cb" 5
           (fst (create_authorization_code "c0de" 0 "chatgpt" "https://cb" None ∅))
           _ (mkCode "chatgpt" "https://cb" None 0 true)).
  reflexivity.
Defined.

(** X20: a failed attempt does not burn a code.  Presenting a code that is
    unused and not yet expired with another client or another redirect
    address returns nothing and leaves the store as it is, so the client the
    code was issued to can still redeem it within the ten minutes. *)
Theorem authorization_code_wrong_client (code client_id redirect_uri : string)
    (now later : Z) (codes : gmap string code_data) (d : code_data) :
  codes !! code = Some d ->
  cd_used d = false ->
  now - cd_created_at d <= seconds 600 ->
  later - cd_created_at d <= seconds 600 ->
  client_id <> cd_client_id d \/ redirect_uri <> cd_redirect_uri d ->
  verify_authorization_code now code client_id redirect_uri codes = (codes, None) /\
  verify_authorization_code later code (cd_client_id d) (cd_redirect_uri d) codes
  = (<[code := mark_used d]> codes, Some (mark_used d)).
Proof.
  intros Hd Hunused Hnow Hlater Hwrong. unfold verify_authorization_code.
  rewrite Hd, Hunused.
  destruct (Z.ltb_spec (seconds 600) (now - cd_created_at d)); [lia |].
  destruct (Z.ltb_spec (seconds 600) (later - cd_created_at d)); [lia |].
  rewrite !String.eqb_refl. split; [| reflexivity].
  destruct Hwrong as [Hc | Hr].
  - destruct (String.eqb_spec (cd_client_id d) client_id) as [Heq |]; [congruence |].
    reflexivity.
  - destruct (String.eqb_spec (cd_redirect_uri d) redirect_uri) as [Heq |]; [congruence |].
    rewrite orb_true_r. reflexivity.
Qed.

Lemma authorization_code_wrong_client_witness :
  let codes := fst (create_authorization_code "c0de" 0 "chatgpt" "https://cb" None ∅) in
  verify_authorization_code 5 "c0de" "mallory" "https://cb" codes = (codes, None) /\
  verify_authorization_code 6 "c0de" "chatgpt" "https://cb" codes
  = (<["c0de" := mark_used (mkCode "chatgpt" "https://cb" None 0 false)]> codes,
     Some (mark_used (mkCode "chatgpt" "https://cb" None 0 false))).
Proof.
  cbv zeta.
  apply (authorization_code_wrong_client "c0de" "mallory" "https://cb" 5 6
           (fst (create_authorization_code "c0de" 0 "chatgpt" "https://cb" None ∅))
           (mkCode "chatgpt" "https://cb" None 0 false)).
  - reflexivity.
  - reflexivity.
  - vm_compute. discriminate.
  - vm_compute. discriminate.
  - left. discriminate.
Defined.

(** X21: an unused code presented more than ten minutes after it was issued
    is refused and removed from the store, whoever presents it; from then on
    every verification of it returns nothing. *)
Theorem authorization_code_expiry (code client_id redirect_uri : string) (now : Z)
    (codes : gmap string code_data) (d : code_data) :
  codes !! code = Some d ->
  cd_used d = false ->
  seconds 600 < now - cd_created_at d ->
  verify_authorization_code now code client_id redirect_uri codes = (delete code codes, None) /\
  forall later client_id' redirect_uri',
    verify_authorization_code later code client_id' redirect_uri' (delete code codes)
    = (delete code codes, None).
Proof.
  intros Hd Hunused Hlate. unfold verify_authorization_code.
  rewrite Hd, Hunused, lookup_delete_eq.
  destruct (Z.ltb_spec (seconds 600) (now - cd_created_at d)); [| lia].
  split; reflexivity.
Qed.

Lemma authorization_code_expiry_witness :
  let codes := fst (create_authorization_code "c0de" 0 "chatgpt" "https://cb" None ∅) in
  verify_authorization_code (seconds 601) "c0de" "chatgpt" "https://cb" codes
  = (delete "c0de" codes, None) /\
  forall later client_id' redirect_uri',
    verify_authorization_code later "c0de" client_id' redirect_uri' (delete "c0de" codes)
    = (delete "c0de" codes, None).
Proof.
  cbv zeta.
  apply (authorization_code_expiry "c0de" "chatgpt" "https://cb" (seconds 601)
           (fst (create_authorization_code "c0de" 0 "chatgpt" "https://cb" None ∅))
           (mkCode "chatgpt" "https://cb" None 0 false)).
  - reflexivity.
  - reflexivity.
  - vm_compute. reflexivity.
Defined.

(** ** Permission checks *)

Lemma append_nil_l (s : string) : String.append EmptyString s = s.
Proof. reflexivity. Qed.

Lemma append_cons (c : Ascii.ascii) (s t : string) :
  String.append (String c s) t = String c (String.append s t).
Proof. reflexivity. Qed.

Lemma index_cons (p : string) (b : Ascii.ascii) (s : string) :
  String.index 0 p (String b s)
  = if String.prefix p (String b s) then Some 0%nat
    else match String.index 0 p s with Some n => Some (S n) | None => None end.
Proof. reflexivity. Qed.

Lemma prefix_append (p post : string) : String.prefix p (String.append p post) = true.
Proof.
  induction p as [| c p IH].
  - rewrite append_nil_l. destruct post; reflexivity.
  - rewrite append_cons. cbn [String.prefix].
    destruct (Ascii.ascii_dec c c) as [_ | Hne]; [exact IH | contradiction].
Qed.

Lemma index_append (p post pre : string) :
  String.index 0 p (String.append pre (String.append p post)) <> None.
Proof.
  induction pre as [| c pre IH].
  - rewrite append_nil_l. destruct (String.append p post) as [| b s'] eqn:Hs.
    + destruct p; [cbn; discriminate | discriminate Hs].
    + rewrite index_cons, <- Hs, prefix_append. discriminate.
  - rewrite append_cons, index_cons.
    destruct (String.prefix p _); [discriminate |].
    destruct (String.index 0 p _); [discriminate | contradiction].
Qed.

Lemma substring_head (n : nat) : forall s,
  String.length (String.substring 0 n s) = n ->
  exists post, s = String.append (String.substring 0 n s) post.
Proof.
  induction n as [| n IH]; intros s Hlen.
  - exists s. destruct s; reflexivity.
  - destruct s as [| c s]; [discriminate Hlen |].
    change (String.substring 0 (S n) (String c s))
      with (String c (String.substring 0 n s)) in Hlen |- *.
    cbn [String.length] in Hlen. injection Hlen as Hlen.
    destruct (IH s Hlen) as [post Hs]. exists post.
    rewrite append_cons, <- Hs. reflexivity.
Qed.

Lemma substring_split (m : nat) : forall n s,
  String.length (String.substring m n s) = n ->
  exists pre post, s = String.append pre (String.append (String.substring m n s) post).
Proof.
  induction m as [| m IH]; intros n s Hlen.
  - destruct (substring_head n s Hlen) as [post Hs]. exists EmptyString, post. exact Hs.
  - destruct s as [| c s].
    + exists EmptyString, EmptyString. reflexivity.
    + change (String.substring (S m) n (String c s)) with (String.substring m n s) in Hlen |- *.
      destruct (IH n s Hlen) as (pre & post & Hs).
      exists (String c pre), post. rewrite append_cons, <- Hs. reflexivity.
Qed.

Lemma str_contains_spec (p s : string) :
  str_contains p s = true <->
  exists pre post, s = String.append pre (String.append p post).
Proof.
  unfold str_contains. split.
  - destruct (String.index 0 p s) as [m |] eqn:Hidx; [intros _ | discriminate].
    apply String.index_correct1 in Hidx.
    destruct (substring_split m (String.length p) s) as (pre & post & Hs).
    { rewrite Hidx. reflexivity. }
    exists pre, post. rewrite Hidx in Hs. exact Hs.
  - intros (pre & post & ->).
    destruct (String.index 0 p _) eqn:Hidx; [reflexivity |].
    exfalso. exact (index_append p post pre Hidx).
Qed.

Lemma py_eq_str (k : string) (x : json) : py_eq (JStr k) x = true <-> x = JStr k.
Proof.
  destruct x; cbn; try (split; [discriminate | intros H; discriminate H]).
  rewrite String.eqb_eq. split; congruence.
Qed.

Lemma existsb_py_eq_str (k : string) (l : list json) :
  existsb (py_eq (JStr k)) l = true <-> In (JStr k) l.
Proof.
  rewrite existsb_exists. split.
  - intros (x & Hin & Heq). apply py_eq_str in Heq. subst x. exact Hin.
  - intros Hin. exists (JStr k). split; [exact Hin |]. apply py_eq_str. reflexivity.
Qed.

(** X22: an OAuth caller is matched against the scope of the token by
    substring.  A bearer token takes precedence over an API key, and the
    caller passes the check for [permission] exactly when [permission] occurs
    somewhere inside the scope string, whatever surrounds it; otherwise the
    answer is 403. *)
Theorem oauth_permission_by_substring (permission s : string) (oauth_user : TokenData)
    (api_key_user : option APIKey) :
  td_scope oauth_user = Some s ->
  exists current_user,
    get_current_user (Some oauth_user) api_key_user = Return current_user /\
    (require_permission permission current_user = Return current_user <->
     exists pre post, s = String.append pre (String.append permission post)) /\
    (require_permission permission current_user = Return current_user \/
     require_permission permission current_user = Raise (permission_required permission)).
Proof.
  intros Hscope. eexists. split; [reflexivity |].
  rewrite Hscope. cbn. rewrite <- str_contains_spec.
  destruct (str_contains permission s); cbn.
  - split; [tauto | left; reflexivity].
  - split; [| right; reflexivity]. split; discriminate.
Qed.

Lemma oauth_permission_by_substring_witness :
  exists current_user,
    get_current_user (Some (mkTokenData (Some "chatgpt") (Some "mcp:readwrite") None)) None
    = Return current_user /\
    (require_permission "read" current_user = Return current_user <->
     exists pre post, "mcp:readwrite" = String.append pre (String.append "read" post)) /\
    (require_permission "read" current_user = Return current_user \/
     require_permission "read" current_user = Raise (permission_required "read")).
Proof.
  apply (oauth_permission_by_substring "read" "mcp:readwrite"
           (mkTokenData (Some "chatgpt") (Some "mcp:readwrite") None) None).
  reflexivity.
Defined.

(** X23: a bearer token that carries no scope cannot pass any permission
    check, and is not answered with 403 either: the user record holds
    [None] under ["scope"], the default of [get] does not apply, and the
    membership test raises [TypeError]. *)
Theorem oauth_without_scope_type_error (permission : string) (oauth_user : TokenData)
    (api_key_user : option APIKey) :
  td_scope oauth_user = None ->
  exists current_user,
    get_current_user (Some oauth_user) api_key_user = Return current_user /\
    require_permission permission current_user = Raise TypeError.
Proof.
  intros Hscope. eexists. split; [reflexivity |].
  rewrite Hscope. reflexivity.
Qed.

Lemma oauth_without_scope_type_error_witness :
  exists current_user,
    get_current_user (Some (mkTokenData (Some "chatgpt") None None)) None
    = Return current_user /\
    require_permission "servers:read" current_user = Raise TypeError.
Proof.
  apply (oauth_without_scope_type_error "servers:read"
           (mkTokenData (Some "chatgpt") None None) None).
  reflexivity.
Defined.

(** X24: an API key passes the check for [permission] exactly when its
    permission list holds [permission] itself or ["admin"]; otherwise the
    answer is 403.  Unlike a scope, the list is matched by whole entries. *)
Theorem api_key_permission_iff (permission : string) (api_key_user : APIKey)
    (permissions : list json) :
  ak_permissions api_key_user = JList permissions ->
  exists current_user,
    get_current_user None (Some api_key_user) = Return current_user /\
    (require_permission permission current_user = Return current_user <->
     In (JStr permission) permissions \/ In (JStr "admin") permissions) /\
    (require_permission permission current_user = Return current_user \/
     require_permission permission current_user = Raise (permission_required permission)).
Proof.
  intros Hperm. eexists. split; [reflexivity |].
  rewrite Hperm.
  set (current_user := JDict _).
  assert (Hrun : require_permission permission current_user
                 = if existsb (py_eq (JStr permission)) permissions then Return current_user
                   else if existsb (py_eq (JStr "admin")) permissions then Return current_user
                   else Raise (permission_required permission)).
  { unfold require_permission, current_user.
    cbn [py_getitem dict_get String.eqb Ascii.eqb Bool.eqb py_eq py_get py_in].
    do 2 destruct (existsb _ permissions); reflexivity. }
  rewrite Hrun, <- !existsb_py_eq_str.
  destruct (existsb (py_eq (JStr permission)) permissions).
  - split; [tauto | left; reflexivity].
  - destruct (existsb (py_eq (JStr "admin")) permissions).
    + split; [tauto | left; reflexivity].
    + split; [| right; reflexivity].
      split; [discriminate | intros [H | H]; discriminate H].
Qed.

Lemma api_key_permission_iff_witness :
  exists current_user,
    get_current_user None (Some (mkAPIKey 7 "ops" (JList [JStr "admin"]))) = Return current_user /\
    (require_permission "servers:write" current_user = Return current_user <->
     In (JStr "servers:write") [JStr "admin"] \/ In (JStr "admin") [JStr "admin"]) /\
    (require_permission "servers:write" current_user = Return current_user \/
     require_permission "servers:write" current_user
     = Raise (permission_required "servers:write")).
Proof.
  apply (api_key_permission_iff "servers:write" (mkAPIKey 7 "ops" (JList [JStr "admin"]))
           [JStr "admin"]).
  reflexivity.
Defined.

(** ** The n8n adapter *)

Lemma trace_log_event (ev : event) (w : World) :
  trace (log_event ev w) = (trace w ++ [ev])%list.
Proof. reflexivity. Qed.

Ltac n8n_refuse Hw Hr :=
  split; [reflexivity |];
  split; [right; reflexivity |];
  split; [discriminate |];
  let response' := fresh in let result' := fresh in
  let H1 := fresh in let H2 := fresh in let H3 := fresh in let H4 := fresh in
  intros (response' & result' & H1 & H2 & H3 & H4);
  try (rewrite H1 in Hw); try (rewrite H2 in Hr); congruence.

(** X25: the handshake of the n8n adapter never raises and performs at most
    one write and one read.  It accepts exactly when the write succeeded and
    the line read back within 10 seconds is a JSON object whose ["jsonrpc"]
    is ["2.0"] and whose ["result"] is itself an object; a timeout, a
    malformed line, a reply that is not an object, an error reply and a
    result that is not an object are all refused. *)
Theorem test_n8n_connection_accepts (E : Env) (process : proc) (w : World) :
  exists evs accepted,
    _test_n8n_connection E process w = (extend w evs, Return accepted) /\
    (evs = [EvStdinWrite process init_request] \/
     evs = [EvStdinWrite process init_request; EvReadline process 10]) /\
    (accepted = true <->
     exists response result,
       io_stdin_write E (trace w) process init_request = Return tt /\
       io_readline E (trace w ++ [EvStdinWrite process init_request])%list process 10
       = Return (Json (JDict response)) /\
       dict_get "jsonrpc" response = Some (JStr "2.0") /\
       dict_get "result" response = Some (JDict result)).
Proof.
  unfold _test_n8n_connection, stdin_write, readline. mstep.
  destruct (io_stdin_write E (trace w) process init_request) as [[] | e] eqn:Hw; mstep.
  2: { exists [EvStdinWrite process init_request], false.
       rewrite log_event_extend. split; [reflexivity |].
       split; [left; reflexivity |].
       split; [discriminate | intros (? & ? & H1 & _); congruence]. }
  rewrite trace_log_event.
  destruct (io_readline E (trace w ++ [EvStdinWrite process init_request])%list process 10)
    as [l | e] eqn:Hr; mstep.
  2: { exists [EvStdinWrite process init_request; EvReadline process 10], false.
       rewrite !log_event_extend, extend_extend.
       destruct (is_timeout e); mstep; n8n_refuse Hw Hr. }
  exists [EvStdinWrite process init_request; EvReadline process 10].
  rewrite !log_event_extend, extend_extend. cbn [app].
  destruct l as [| response]; cbn [json_loads]; mstep.
  { exists false. n8n_refuse Hw Hr. }
  destruct response as [| b | n | s | l | response]; cbn [py_get]; mstep;
    try (exists false; n8n_refuse Hw Hr).
  destruct (dict_get "jsonrpc" response) as [version |] eqn:Hversion.
  2: { cbn [py_eq]. mstep. exists false. n8n_refuse Hw Hr. }
  destruct version as [| b | n | version | l | d]; cbn [py_eq]; mstep;
    try (exists false; n8n_refuse Hw Hr).
  destruct (String.eqb_spec version "2.0") as [-> | Hne]; mstep.
  2: { exists false. n8n_refuse Hw Hr. }
  cbn [py_in py_getitem]. mstep. unfold dict_has.
  destruct (dict_get "result" response) as [result |] eqn:Hresult; mstep.
  2: { exists false. n8n_refuse Hw Hr. }
  destruct result as [| b | n | s | l | result]; cbn [py_get]; mstep;
    try (exists false; n8n_refuse Hw Hr).
  exists true. split; [reflexivity |]. split; [right; reflexivity |].
  split; [intros _ | reflexivity].
  exists response, result. auto.
Qed.
